(** * Layout operations of diagramatics: alignment and distribution

    A shallow embedding of [src/alignment.ts] and the properties of its
    natural-language specification.

    Conventions of the embedding.
    - In section [Layout] a JavaScript [number] is an exact real ([R]);
      that section carries the properties of structure, of errors and of
      composition.  What depends on the value a subtraction or an addition
      of numbers returns is stated in module [Double], where the same
      operations are embedded over IEEE 754 binary64 ([float]).
    - A JavaScript array of diagrams is a [list]; [a[i]] is [nth_error a i],
      and a method call on the [undefined] of an out-of-range read is the
      [TypeError] the engine raises there.
    - A function that can [throw] returns a [Result]; sequencing is the bind
      of that monad.
    - A mode is the [string] the function receives at run time.  An omitted
      argument takes its default at the call ([alignment = 'center'],
      [space = 0]); the embedded functions take their arguments explicitly.
    - [diagram.ts] and [vector.ts] are collaborators of the layout code; the
      layout functions are written over their interface: the type of
      diagrams with [get_anchor], [translate] and [diagram_combine] are the
      variables of the section [Layout]. *)

From Stdlib Require Import Reals Lra Lia List String Bool Arith Permutation.
From Stdlib Require Import ZArith Floats.
Import ListNotations.

Open Scope string_scope.
Open Scope list_scope.
Open Scope R_scope.

(** ** Vectors *)

(** Modelled from the spec: the [Vector2] class and its constructor function
    [V2] of [vector.ts], of which the layout code uses the two coordinates:
    "a pair of real-valued coordinates (x, y)". *)
Record Vector2 : Type := V2 { x : R; y : R }.

(** Modelled from the spec: the addition of a displacement to a point
    ("Displacement: a Point interpreted as a translation vector; add
    semantics only"). *)
Definition vadd (p v : Vector2) : Vector2 := V2 (x p + x v) (y p + y v).

(** ** Anchors *)

(** Modelled from the spec: the [Anchor] type of [diagram.ts], the nine names
    of the 3x3 grid ("top-left", "top-center", ..., "bottom-right"). *)
Inductive Anchor : Type :=
| top_left | top_center | top_right
| center_left | center_center | center_right
| bottom_left | bottom_center | bottom_right.

(** ** Exceptions *)

(** What a call can throw: [new Error(msg)] of the source, and the
    [TypeError] of a method call on [undefined]. *)
Inductive Exception : Type :=
| Error (msg : string)
| TypeError.

Inductive Result (A : Type) : Type :=
| Ok (a : A)
| Throw (e : Exception).

Arguments Ok {A} a.
Arguments Throw {A} e.

Definition bind {A B : Type} (r : Result A) (k : A -> Result B) : Result B :=
  match r with
  | Ok a => k a
  | Throw e => Throw e
  end.

Definition fmap {A B : Type} (f : A -> B) (r : Result A) : Result B :=
  bind r (fun a => Ok (f a)).

Notation "'let*' a ':=' r 'in' k" := (bind r (fun a => k))
  (at level 10, a name, r at level 100, k at level 200).

(** [for (let i = start; ...; i++) body], run [count] times on the loop
    state [s]. *)
Fixpoint for_range {St : Type} (start count : nat)
    (body : nat -> St -> Result St) (s : St) : Result St :=
  match count with
  | O => Ok s
  | S count' => let* s' := body start s in for_range (S start) count' body s'
  end.

(** [a[i].m(...)]: the element, or the [TypeError] of [undefined.m]. *)
Definition at_index {A : Type} (a : list A) (i : nat) : Result A :=
  match nth_error a i with
  | Some d => Ok d
  | None => Throw TypeError
  end.

(** ** A concrete diagram type *)

#[local] Set Warnings "-register-all".

(** Modelled from the spec: a diagram of [diagram.ts] as the specification
    describes it, a rectangular object given by the four edges of its
    bounding extents, from which the nine anchors of the 3x3 grid are read,
    together with the members that [diagram_combine] merged into it.  The
    layout code is written over the interface only; this type instantiates
    it on concrete inputs. *)
Inductive Figure : Type :=
| figure (left right top bottom : R) (members : list Figure).

(** Modelled from the spec: the members a merged diagram of [diagram.ts]
    decomposes into. *)
Definition figure_members (d : Figure) : list Figure :=
  match d with figure _ _ _ _ ms => ms end.

(** Modelled from the spec: [get_anchor] of [diagram.ts], "horizontal
    position {left, center, right} x vertical position {top, center,
    bottom}" of the bounding extents. *)
Definition figure_anchor (d : Figure) (a : Anchor) : Vector2 :=
  match d with
  | figure l r t b _ =>
    match a with
    | top_left => V2 l t
    | top_center => V2 ((l + r) / 2) t
    | top_right => V2 r t
    | center_left => V2 l ((t + b) / 2)
    | center_center => V2 ((l + r) / 2) ((t + b) / 2)
    | center_right => V2 r ((t + b) / 2)
    | bottom_left => V2 l b
    | bottom_center => V2 ((l + r) / 2) b
    | bottom_right => V2 r b
    end
  end.

(** Modelled from the spec: [translate] of [diagram.ts], "returns a new
    object congruent to the original but shifted". *)
Fixpoint figure_translate (d : Figure) (v : Vector2) : Figure :=
  match d with
  | figure l r t b ms =>
    figure (l + x v) (r + x v) (t + y v) (b + y v)
           (map (fun m => figure_translate m v) ms)
  end.

(** Modelled from the spec: the bounding extents of a sequence of diagrams,
    which enclose those of every member (y grows downwards, as the
    specification assumes). *)
Fixpoint figure_hull (ds : list Figure) : R * R * R * R :=
  match ds with
  | [] => (0, 0, 0, 0)
  | figure l r t b _ :: [] => (l, r, t, b)
  | figure l r t b _ :: ds' =>
    let '(l', r', t', b') := figure_hull ds' in
    (Rmin l l', Rmax r r', Rmin t t', Rmax b b')
  end.

(** Modelled from the spec: [diagram_combine] of [diagram.ts], "merges a
    sequence of objects into one composite object, preserving each member's
    position". *)
Definition figure_combine (ds : list Figure) : Figure :=
  let '(l, r, t, b) := figure_hull ds in figure l r t b ds.

(** The unit square whose top-left corner is at [(left, top)]. *)
Definition unit_square (left top : R) : Figure :=
  figure left (left + 1) top (top + 1) [].

Definition three_squares : list Figure :=
  [unit_square 0 0; unit_square 5 3; unit_square 2 (-4)].

(** ** The layout operations *)

Section Layout.

(** The interface of [diagram.ts] the layout code consumes. *)
Variable Diagram : Type.
Variable get_anchor : Diagram -> Anchor -> Vector2.
Variable translate : Diagram -> Vector2 -> Diagram.
Variable diagram_combine : list Diagram -> Diagram.

(** *** Alignment *)

Definition align_vertical (diagrams : list Diagram) (alignment : string)
    : Result (list Diagram) :=
  match diagrams with
  | [] => Ok diagrams
  | d0 :: _ =>
    if (alignment =? "top")%string then
      let top_y := y (get_anchor d0 top_left) in
      Ok (map (fun d => translate d (V2 0 (top_y - y (get_anchor d top_left))))
              diagrams)
    else if (alignment =? "center")%string then
      let center_y := y (get_anchor d0 center_left) in
      Ok (map (fun d => translate d (V2 0 (center_y - y (get_anchor d center_left))))
              diagrams)
    else if (alignment =? "bottom")%string then
      let bottom_y := y (get_anchor d0 bottom_left) in
      Ok (map (fun d => translate d (V2 0 (bottom_y - y (get_anchor d bottom_left))))
              diagrams)
    else
      Throw (Error ("Unknown vertical alignment : " ++ alignment)%string)
  end.

Definition align_horizontal (diagrams : list Diagram) (alignment : string)
    : Result (list Diagram) :=
  match diagrams with
  | [] => Ok diagrams
  | d0 :: _ =>
    if (alignment =? "left")%string then
      let left_x := x (get_anchor d0 top_left) in
      Ok (map (fun d => translate d (V2 (left_x - x (get_anchor d top_left)) 0))
              diagrams)
    else if (alignment =? "center")%string then
      let center_x := x (get_anchor d0 top_center) in
      Ok (map (fun d => translate d (V2 (center_x - x (get_anchor d top_center)) 0))
              diagrams)
    else if (alignment =? "right")%string then
      let right_x := x (get_anchor d0 top_right) in
      Ok (map (fun d => translate d (V2 (right_x - x (get_anchor d top_right)) 0))
              diagrams)
    else
      Throw (Error ("Unknown horizontal alignment : " ++ alignment)%string)
  end.

(** *** Distribution *)

(** The body of the loop of [distribute_horizontal]: the loop state is the
    array [distributed_diagrams]; [push] appends. *)
Definition distribute_horizontal_body (diagrams : list Diagram) (space : R)
    (i : nat) (distributed_diagrams : list Diagram) : Result (list Diagram) :=
  let* prev_diagram := at_index distributed_diagrams (i - 1)%nat in
  let* this_diagram := at_index diagrams i in
  let prev_right := x (get_anchor prev_diagram top_right) in
  let this_left := x (get_anchor this_diagram top_left) in
  let dx := prev_right - this_left + space in
  Ok (distributed_diagrams ++ [translate this_diagram (V2 dx 0)]).

Definition distribute_horizontal (diagrams : list Diagram) (space : R)
    : Result (list Diagram) :=
  match diagrams with
  | [] => Ok diagrams
  | d0 :: _ =>
    for_range 1 (List.length diagrams - 1)%nat
      (distribute_horizontal_body diagrams space) [d0]
  end.

Definition distribute_vertical_body (diagrams : list Diagram) (space : R)
    (i : nat) (distributed_diagrams : list Diagram) : Result (list Diagram) :=
  let* prev_diagram := at_index distributed_diagrams (i - 1)%nat in
  let* this_diagram := at_index diagrams i in
  let prev_bottom := y (get_anchor prev_diagram bottom_left) in
  let this_top := y (get_anchor this_diagram top_left) in
  let dy := prev_bottom - this_top - space in
  Ok (distributed_diagrams ++ [translate this_diagram (V2 0 dy)]).

Definition distribute_vertical (diagrams : list Diagram) (space : R)
    : Result (list Diagram) :=
  match diagrams with
  | [] => Ok diagrams
  | d0 :: _ =>
    for_range 1 (List.length diagrams - 1)%nat
      (distribute_vertical_body diagrams space) [d0]
  end.

(** *** Alignment followed by distribution *)

Definition distribute_horizontal_and_align (diagrams : list Diagram)
    (horizontal_space : R) (alignment : string) : Result (list Diagram) :=
  let* aligned := align_vertical diagrams alignment in
  distribute_horizontal aligned horizontal_space.

Definition distribute_vertical_and_align (diagrams : list Diagram)
    (vertical_space : R) (alignment : string) : Result (list Diagram) :=
  let* aligned := align_horizontal diagrams alignment in
  distribute_vertical aligned vertical_space.

(** *** The variants that combine the result *)

Definition align_vertical_c (diagrams : list Diagram) (alignment : string)
    : Result Diagram :=
  let* ds := align_vertical diagrams alignment in Ok (diagram_combine ds).

Definition align_horizontal_c (diagrams : list Diagram) (alignment : string)
    : Result Diagram :=
  let* ds := align_horizontal diagrams alignment in Ok (diagram_combine ds).

Definition distribute_horizontal_c (diagrams : list Diagram) (space : R)
    : Result Diagram :=
  let* ds := distribute_horizontal diagrams space in Ok (diagram_combine ds).

Definition distribute_vertical_c (diagrams : list Diagram) (space : R)
    : Result Diagram :=
  let* ds := distribute_vertical diagrams space in Ok (diagram_combine ds).

Definition distribute_horizontal_and_align_c (diagrams : list Diagram)
    (horizontal_space : R) (alignment : string) : Result Diagram :=
  let* ds := distribute_horizontal_and_align diagrams horizontal_space alignment in
  Ok (diagram_combine ds).

Definition distribute_vertical_and_align_c (diagrams : list Diagram)
    (vertical_space : R) (alignment : string) : Result Diagram :=
  let* ds := distribute_vertical_and_align diagrams vertical_space alignment in
  Ok (diagram_combine ds).

(** *** Vocabulary of the specification *)

(** The anchor a vertical mode selects (specification, section 4.1):
    [top], [center], [bottom] select [top-left], [center-left],
    [bottom-left]. *)
Definition vertical_anchor (alignment : string) : option Anchor :=
  if (alignment =? "top")%string then Some top_left
  else if (alignment =? "center")%string then Some center_left
  else if (alignment =? "bottom")%string then Some bottom_left
  else None.

(** The anchor a horizontal mode selects: [left], [center], [right] select
    [top-left], [top-center], [top-right]. *)
Definition horizontal_anchor (alignment : string) : option Anchor :=
  if (alignment =? "left")%string then Some top_left
  else if (alignment =? "center")%string then Some top_center
  else if (alignment =? "right")%string then Some top_right
  else None.

(** [image d d']: [d'] is [d], possibly translated (any number of times). *)
Inductive image (d : Diagram) : Diagram -> Prop :=
| image_same : image d d
| image_moved (d' : Diagram) (v : Vector2) :
    image d d' -> image d (translate d' v).

(** The two-step pipeline of the specification (section 4.3): the output
    of the alignment is the input of the distribution. *)
Definition pipeline (align : list Diagram -> string -> Result (list Diagram))
    (distribute : list Diagram -> R -> Result (list Diagram))
    (diagrams : list Diagram) (gap : R) (mode : string)
    : Result (list Diagram) :=
  match align diagrams mode with
  | Ok aligned => distribute aligned gap
  | Throw e => Throw e
  end.

(** One step of a distribution: where [this] goes, next to the placed
    [prev]. *)
Definition place_right (space : R) (prev this : Diagram) : Diagram :=
  translate this
    (V2 (x (get_anchor prev top_right) - x (get_anchor this top_left) + space) 0).

Definition place_below (space : R) (prev this : Diagram) : Diagram :=
  translate this
    (V2 0 (y (get_anchor prev bottom_left) - y (get_anchor this top_left) - space)).

(** The chain a distribution builds after its first element. *)
Fixpoint chain (step : Diagram -> Diagram -> Diagram) (prev : Diagram)
    (rest : list Diagram) : list Diagram :=
  match rest with
  | [] => []
  | this :: rest' => let d := step prev this in d :: chain step d rest'
  end.

(** *** The contracts of the collaborators *)

(** Translate (specification, sections 2 and 3): the translated diagram is
    the original shifted by the displacement, at every anchor. *)
Hypothesis get_anchor_translate : forall d v a,
  get_anchor (translate d v) a = vadd (get_anchor d a) v.

(** Combine: the merged diagram decomposes into the members it was built
    from, in order and at their positions. *)
Variable members : Diagram -> list Diagram.
Hypothesis members_combine : forall ds, members (diagram_combine ds) = ds.

(** [returns r]: the call returns a value, it does not throw. *)
Definition returns {A : Type} (r : Result A) : Prop := exists a, r = Ok a.

(** [preserved ds r]: a sequence returned as [r] has the length of [ds]
    and, index by index, holds images of the elements of [ds]. *)
Definition preserved (ds : list Diagram) (r : Result (list Diagram)) : Prop :=
  forall out, r = Ok out ->
    List.length out = List.length ds /\
    forall i d, nth_error ds i = Some d ->
      exists d', nth_error out i = Some d' /\ image d d'.

(** [merged_from c base]: the combining variant [c] is Combine applied to
    the sequence of the base operation, and what it returns decomposes
    into that sequence; it throws what the base operation throws. *)
Definition merged_from (c : Result Diagram) (base : Result (list Diagram))
    : Prop :=
  c = fmap diagram_combine base /\
  match base with
  | Ok out => exists merged, c = Ok merged /\ members merged = out
  | Throw e => c = Throw e
  end.

(** [same_place d d']: the two diagrams have every anchor at the same
    point. *)
Definition same_place (d d' : Diagram) : Prop :=
  forall b, get_anchor d b = get_anchor d' b.

(** [shifted d d']: one displacement carries every anchor of [d] to the
    same anchor of [d']. *)
Definition shifted (d d' : Diagram) : Prop :=
  exists v, forall b, get_anchor d' b = vadd (get_anchor d b) v.

(** [linked ok prev l]: each element of [l] stands in the relation [ok] to
    the one before it, [prev] coming before the first. *)
Inductive linked (ok : Diagram -> Diagram -> Prop)
    : Diagram -> list Diagram -> Prop :=
| linked_nil (prev : Diagram) : linked ok prev []
| linked_cons (prev d : Diagram) (l : list Diagram) :
    ok prev d -> linked ok d l -> linked ok prev (d :: l).

(** *** The loop of the distributions *)

Lemma at_index_app_last {A : Type} (acc : list A) (d : A) :
  at_index (acc ++ [d]) (List.length acc) = Ok d.
Proof.
  unfold at_index. rewrite nth_error_app2 by lia.
  rewrite Nat.sub_diag. reflexivity.
Qed.

Lemma at_index_app_mid {A : Type} (pre rest : list A) (d : A) :
  at_index (pre ++ d :: rest) (List.length pre) = Ok d.
Proof.
  unfold at_index. rewrite nth_error_app2 by lia.
  rewrite Nat.sub_diag. reflexivity.
Qed.

Lemma for_range_chain (step : Diagram -> Diagram -> Diagram)
    (body : list Diagram -> nat -> list Diagram -> Result (list Diagram)) :
  (forall ds i acc,
      body ds i acc =
      (let* prev := at_index acc (i - 1)%nat in
       let* this := at_index ds i in
       Ok (acc ++ [step prev this]))) ->
  forall rest pre acc prev,
    List.length pre = S (List.length acc) ->
    for_range (List.length pre) (List.length rest) (body (pre ++ rest))
              (acc ++ [prev])
    = Ok (acc ++ prev :: chain step prev rest).
Proof.
  intros Hbody rest.
  induction rest as [|this rest IH]; intros pre acc prev Hlen.
  - reflexivity.
  - cbn [for_range List.length chain]. rewrite Hbody.
    replace (List.length pre - 1)%nat with (List.length acc) by lia.
    rewrite at_index_app_last, at_index_app_mid. cbn [bind].
    replace (pre ++ this :: rest) with ((pre ++ [this]) ++ rest)
      by (rewrite <- app_assoc; reflexivity).
    replace (S (List.length pre)) with (List.length (pre ++ [this]))
      by (rewrite length_app; simpl; lia).
    rewrite IH.
    + rewrite <- app_assoc. reflexivity.
    + rewrite !length_app. simpl. lia.
Qed.

Lemma distribute_horizontal_chain (d0 : Diagram) (rest : list Diagram) (space : R) :
  distribute_horizontal (d0 :: rest) space
  = Ok (d0 :: chain (place_right space) d0 rest).
Proof.
  unfold distribute_horizontal.
  replace (List.length (d0 :: rest) - 1)%nat with (List.length rest)
    by (simpl; lia).
  apply (for_range_chain (place_right space)
           (fun ds => distribute_horizontal_body ds space)
           (fun _ _ _ => eq_refl) rest [d0] [] d0).
  reflexivity.
Qed.

Lemma distribute_vertical_chain (d0 : Diagram) (rest : list Diagram) (space : R) :
  distribute_vertical (d0 :: rest) space
  = Ok (d0 :: chain (place_below space) d0 rest).
Proof.
  unfold distribute_vertical.
  replace (List.length (d0 :: rest) - 1)%nat with (List.length rest)
    by (simpl; lia).
  apply (for_range_chain (place_below space)
           (fun ds => distribute_vertical_body ds space)
           (fun _ _ _ => eq_refl) rest [d0] [] d0).
  reflexivity.
Qed.

(** *** Alignment: what a valid mode computes *)

Lemma align_vertical_map (d0 : Diagram) (rest : list Diagram) (m : string)
    (a : Anchor) :
  vertical_anchor m = Some a ->
  align_vertical (d0 :: rest) m
  = Ok (map (fun d => translate d
               (V2 0 (y (get_anchor d0 a) - y (get_anchor d a))))
            (d0 :: rest)).
Proof.
  unfold vertical_anchor, align_vertical.
  destruct (m =? "top")%string; [intros [= <-]; reflexivity|].
  destruct (m =? "center")%string; [intros [= <-]; reflexivity|].
  destruct (m =? "bottom")%string; [intros [= <-]; reflexivity|].
  discriminate.
Qed.

Lemma align_horizontal_map (d0 : Diagram) (rest : list Diagram) (m : string)
    (a : Anchor) :
  horizontal_anchor m = Some a ->
  align_horizontal (d0 :: rest) m
  = Ok (map (fun d => translate d
               (V2 (x (get_anchor d0 a) - x (get_anchor d a)) 0))
            (d0 :: rest)).
Proof.
  unfold horizontal_anchor, align_horizontal.
  destruct (m =? "left")%string; [intros [= <-]; reflexivity|].
  destruct (m =? "center")%string; [intros [= <-]; reflexivity|].
  destruct (m =? "right")%string; [intros [= <-]; reflexivity|].
  discriminate.
Qed.

Lemma align_vertical_unknown (d0 : Diagram) (rest : list Diagram) (m : string) :
  vertical_anchor m = None ->
  align_vertical (d0 :: rest) m
  = Throw (Error ("Unknown vertical alignment : " ++ m)%string).
Proof.
  unfold vertical_anchor, align_vertical.
  destruct (m =? "top")%string; [discriminate|].
  destruct (m =? "center")%string; [discriminate|].
  destruct (m =? "bottom")%string; [discriminate|].
  reflexivity.
Qed.

Lemma align_horizontal_unknown (d0 : Diagram) (rest : list Diagram) (m : string) :
  horizontal_anchor m = None ->
  align_horizontal (d0 :: rest) m
  = Throw (Error ("Unknown horizontal alignment : " ++ m)%string).
Proof.
  unfold horizontal_anchor, align_horizontal.
  destruct (m =? "left")%string; [discriminate|].
  destruct (m =? "center")%string; [discriminate|].
  destruct (m =? "right")%string; [discriminate|].
  reflexivity.
Qed.

Lemma moved_y (d : Diagram) (dy : R) (a : Anchor) :
  get_anchor (translate d (V2 0 dy)) a
  = V2 (x (get_anchor d a)) (y (get_anchor d a) + dy).
Proof.
  rewrite get_anchor_translate. unfold vadd. cbn [x y]. f_equal. lra.
Qed.

Lemma moved_x (d : Diagram) (dx : R) (a : Anchor) :
  get_anchor (translate d (V2 dx 0)) a
  = V2 (x (get_anchor d a) + dx) (y (get_anchor d a)).
Proof.
  rewrite get_anchor_translate. unfold vadd. cbn [x y]. f_equal. lra.
Qed.

(** *** Distribution: the chain, index by index *)

Lemma chain_length (step : Diagram -> Diagram -> Diagram) (rest : list Diagram) :
  forall prev, List.length (chain step prev rest) = List.length rest.
Proof.
  induction rest as [|this rest IH]; intros prev; simpl; [|rewrite IH];
    reflexivity.
Qed.

Lemma chain_nth (step : Diagram -> Diagram -> Diagram) (rest : list Diagram) :
  forall d0 i prev this,
    nth_error (d0 :: chain step d0 rest) i = Some prev ->
    nth_error (d0 :: rest) (S i) = Some this ->
    nth_error (d0 :: chain step d0 rest) (S i) = Some (step prev this).
Proof.
  induction rest as [|d1 rest IH]; intros d0 i prev this Hprev Hthis.
  - destruct i; discriminate.
  - destruct i as [|i].
    + simpl in *. congruence.
    + apply (IH (step d0 d1) i prev this); assumption.
Qed.

Lemma nth_error_defined {A : Type} (l : list A) (i : nat) :
  (i < List.length l)%nat -> exists d, nth_error l i = Some d.
Proof.
  intros Hi. destruct (nth_error l i) eqn:E; [eauto|].
  apply nth_error_None in E. lia.
Qed.

Lemma nth_error_in_range {A : Type} (l : list A) (i : nat) (d : A) :
  nth_error l i = Some d -> (i < List.length l)%nat.
Proof. intros E. apply nth_error_Some. congruence. Qed.

(** *** Errors and the empty sequence *)

(** C4, as the code has it. For a non-empty sequence, a mode outside the
    enumerated set makes [align_vertical] (respectively [align_horizontal])
    throw an [Error] whose message ends with the unknown mode; no sequence
    is returned. *)
Theorem align_unknown_mode_throws (ds : list Diagram) (m : string) :
  ds <> [] ->
  (vertical_anchor m = None ->
   align_vertical ds m
   = Throw (Error ("Unknown vertical alignment : " ++ m)%string) /\
   forall out, align_vertical ds m <> Ok out) /\
  (horizontal_anchor m = None ->
   align_horizontal ds m
   = Throw (Error ("Unknown horizontal alignment : " ++ m)%string) /\
   forall out, align_horizontal ds m <> Ok out).
Proof.
  intros Hne. destruct ds as [|d0 rest]; [congruence|].
  split; intros Hm.
  - rewrite (align_vertical_unknown _ _ _ Hm). split; [reflexivity|discriminate].
  - rewrite (align_horizontal_unknown _ _ _ Hm). split; [reflexivity|discriminate].
Qed.

(** C5. On the empty sequence each of the four operations returns the
    empty sequence and throws nothing, whatever the mode and the gap. *)
Theorem empty_sequence_returned (m : string) (gap : R) :
  align_vertical [] m = Ok [] /\
  align_horizontal [] m = Ok [] /\
  distribute_horizontal [] gap = Ok [] /\
  distribute_vertical [] gap = Ok [].
Proof. repeat split. Qed.

(** C10. The test for the empty sequence comes before the dispatch on the
    mode: on the empty sequence both alignments return the empty sequence
    for every mode string, the ones outside the enumerated sets included,
    and the unknown-mode error is not thrown. *)
Theorem empty_check_precedes_mode_check (m : string) :
  (align_vertical [] m = Ok [] /\
   align_vertical [] m
   <> Throw (Error ("Unknown vertical alignment : " ++ m)%string)) /\
  (align_horizontal [] m = Ok [] /\
   align_horizontal [] m
   <> Throw (Error ("Unknown horizontal alignment : " ++ m)%string)).
Proof. repeat split; discriminate. Qed.

(** *** Length and order *)

Lemma image_trans (d d' d'' : Diagram) :
  image d d' -> image d' d'' -> image d d''.
Proof.
  intros H1 H2. induction H2 as [|e v _ IH]; [exact H1|].
  apply image_moved, IH.
Qed.

Lemma image_map (f : Diagram -> Vector2) (ds : list Diagram) :
  Forall2 image ds (map (fun d => translate d (f d)) ds).
Proof.
  induction ds as [|d ds IH]; constructor; [|exact IH].
  apply image_moved, image_same.
Qed.

Lemma image_chain (step : Diagram -> Diagram -> Diagram) :
  (forall prev this, image this (step prev this)) ->
  forall rest prev, Forall2 image rest (chain step prev rest).
Proof.
  intros Hstep rest.
  induction rest as [|this rest IH]; intros prev; constructor;
    [apply Hstep|apply IH].
Qed.

Lemma Forall2_image_trans (l1 l2 l3 : list Diagram) :
  Forall2 image l1 l2 -> Forall2 image l2 l3 -> Forall2 image l1 l3.
Proof.
  intros H12. revert l3.
  induction H12 as [|d d' l l' Hd _ IH]; intros l3 H23;
    inversion H23; subst; constructor; [eapply image_trans; eauto|auto].
Qed.

Lemma Forall2_image_index (l l' : list Diagram) :
  Forall2 image l l' ->
  List.length l' = List.length l /\
  forall i d, nth_error l i = Some d ->
    exists d', nth_error l' i = Some d' /\ image d d'.
Proof.
  induction 1 as [|d d' l l' Hd _ [IHlen IH]].
  - split; [reflexivity|]. intros [|i] ? H; discriminate.
  - split; [simpl; congruence|].
    intros [|i] e He; simpl in *.
    + injection He as <-. eauto.
    + apply IH, He.
Qed.

Lemma align_vertical_image (ds : list Diagram) (m : string) (out : list Diagram) :
  align_vertical ds m = Ok out -> Forall2 image ds out.
Proof.
  destruct ds as [|d0 rest]; [intros [= <-]; constructor|].
  destruct (vertical_anchor m) as [a|] eqn:Hm.
  - rewrite (align_vertical_map _ _ _ _ Hm). intros [= <-].
    apply (image_map (fun d => V2 0 (y (get_anchor d0 a) - y (get_anchor d a)))
             (d0 :: rest)).
  - rewrite (align_vertical_unknown _ _ _ Hm). discriminate.
Qed.

Lemma align_horizontal_image (ds : list Diagram) (m : string) (out : list Diagram) :
  align_horizontal ds m = Ok out -> Forall2 image ds out.
Proof.
  destruct ds as [|d0 rest]; [intros [= <-]; constructor|].
  destruct (horizontal_anchor m) as [a|] eqn:Hm.
  - rewrite (align_horizontal_map _ _ _ _ Hm). intros [= <-].
    apply (image_map (fun d => V2 (x (get_anchor d0 a) - x (get_anchor d a)) 0)
             (d0 :: rest)).
  - rewrite (align_horizontal_unknown _ _ _ Hm). discriminate.
Qed.

Lemma distribute_horizontal_image (ds : list Diagram) (gap : R) :
  exists out, distribute_horizontal ds gap = Ok out /\ Forall2 image ds out.
Proof.
  destruct ds as [|d0 rest]; [exists []; split; [reflexivity|constructor]|].
  eexists. split; [apply distribute_horizontal_chain|].
  constructor; [apply image_same|].
  apply image_chain. intros prev this. apply image_moved, image_same.
Qed.

Lemma distribute_vertical_image (ds : list Diagram) (gap : R) :
  exists out, distribute_vertical ds gap = Ok out /\ Forall2 image ds out.
Proof.
  destruct ds as [|d0 rest]; [exists []; split; [reflexivity|constructor]|].
  eexists. split; [apply distribute_vertical_chain|].
  constructor; [apply image_same|].
  apply image_chain. intros prev this. apply image_moved, image_same.
Qed.

Lemma align_vertical_returns (ds : list Diagram) (m : string) :
  vertical_anchor m <> None -> returns (align_vertical ds m).
Proof.
  intros Hm. destruct ds as [|d0 rest]; [exists []; reflexivity|].
  destruct (vertical_anchor m) as [a|] eqn:E; [|congruence].
  eexists. apply (align_vertical_map _ _ _ _ E).
Qed.

Lemma align_horizontal_returns (ds : list Diagram) (m : string) :
  horizontal_anchor m <> None -> returns (align_horizontal ds m).
Proof.
  intros Hm. destruct ds as [|d0 rest]; [exists []; reflexivity|].
  destruct (horizontal_anchor m) as [a|] eqn:E; [|congruence].
  eexists. apply (align_horizontal_map _ _ _ _ E).
Qed.

(** C6. Each of the six sequence-returning operations returns, when it
    returns at all, a sequence of the length of its input whose element [i]
    is the input's element [i], possibly translated; the two distributions
    always return, and the alignments and the compositions return for every
    mode of their enumerated set. *)
Theorem operations_preserve_sequence (ds : list Diagram) (gap : R) (m : string) :
  (preserved ds (align_vertical ds m) /\
   preserved ds (align_horizontal ds m) /\
   preserved ds (distribute_horizontal ds gap) /\
   preserved ds (distribute_vertical ds gap) /\
   preserved ds (distribute_horizontal_and_align ds gap m) /\
   preserved ds (distribute_vertical_and_align ds gap m)) /\
  (returns (distribute_horizontal ds gap) /\
   returns (distribute_vertical ds gap)) /\
  (vertical_anchor m <> None ->
   returns (align_vertical ds m) /\
   returns (distribute_horizontal_and_align ds gap m)) /\
  (horizontal_anchor m <> None ->
   returns (align_horizontal ds m) /\
   returns (distribute_vertical_and_align ds gap m)).
Proof.
  assert (Hdh : forall l, exists out,
             distribute_horizontal l gap = Ok out /\ Forall2 image l out)
    by (intros l; apply distribute_horizontal_image).
  assert (Hdv : forall l, exists out,
             distribute_vertical l gap = Ok out /\ Forall2 image l out)
    by (intros l; apply distribute_vertical_image).
  split; [|split; [|split]].
  - split; [|split; [|split; [|split; [|split]]]];
      intros out Hout; apply Forall2_image_index.
    + exact (align_vertical_image _ _ _ Hout).
    + exact (align_horizontal_image _ _ _ Hout).
    + destruct (Hdh ds) as [out' [E H]]. congruence.
    + destruct (Hdv ds) as [out' [E H]]. congruence.
    + unfold distribute_horizontal_and_align in Hout.
      destruct (align_vertical ds m) as [aligned|e] eqn:Ea; [|discriminate].
      cbn [bind] in Hout. destruct (Hdh aligned) as [out' [E H]].
      apply (Forall2_image_trans _ aligned).
      * exact (align_vertical_image _ _ _ Ea).
      * congruence.
    + unfold distribute_vertical_and_align in Hout.
      destruct (align_horizontal ds m) as [aligned|e] eqn:Ea; [|discriminate].
      cbn [bind] in Hout. destruct (Hdv aligned) as [out' [E H]].
      apply (Forall2_image_trans _ aligned).
      * exact (align_horizontal_image _ _ _ Ea).
      * congruence.
  - split.
    + destruct (Hdh ds) as [out [E _]]. exists out. exact E.
    + destruct (Hdv ds) as [out [E _]]. exists out. exact E.
  - intros Hm. split; [apply align_vertical_returns, Hm|].
    destruct (align_vertical_returns ds m Hm) as [aligned Ea].
    destruct (Hdh aligned) as [out [E _]]. exists out.
    unfold distribute_horizontal_and_align. rewrite Ea. exact E.
  - intros Hm. split; [apply align_horizontal_returns, Hm|].
    destruct (align_horizontal_returns ds m Hm) as [aligned Ea].
    destruct (Hdv aligned) as [out [E _]]. exists out.
    unfold distribute_vertical_and_align. rewrite Ea. exact E.
Qed.

(** *** Compositions *)

(** C8. [distribute_horizontal_and_align] is the two-step pipeline of
    [align_vertical] and [distribute_horizontal], and
    [distribute_vertical_and_align] that of [align_horizontal] and
    [distribute_vertical]; for a mode of the enumerated set both steps
    return, and the composition returns the very sequence the distribution
    returns on the aligned sequence. *)
Theorem compositions_are_pipelines (ds : list Diagram) (g : R) (m : string) :
  distribute_horizontal_and_align ds g m
  = pipeline align_vertical distribute_horizontal ds g m /\
  distribute_vertical_and_align ds g m
  = pipeline align_horizontal distribute_vertical ds g m /\
  (vertical_anchor m <> None ->
   exists aligned out,
     align_vertical ds m = Ok aligned /\
     distribute_horizontal aligned g = Ok out /\
     distribute_horizontal_and_align ds g m = Ok out) /\
  (horizontal_anchor m <> None ->
   exists aligned out,
     align_horizontal ds m = Ok aligned /\
     distribute_vertical aligned g = Ok out /\
     distribute_vertical_and_align ds g m = Ok out).
Proof.
  split; [reflexivity|]. split; [reflexivity|]. split; intros Hm.
  - destruct (align_vertical_returns ds m Hm) as [aligned Ea].
    destruct (distribute_horizontal_image aligned g) as [out [E _]].
    exists aligned, out. unfold distribute_horizontal_and_align.
    rewrite Ea. cbn [bind]. repeat split; assumption.
  - destruct (align_horizontal_returns ds m Hm) as [aligned Ea].
    destruct (distribute_vertical_image aligned g) as [out [E _]].
    exists aligned, out. unfold distribute_vertical_and_align.
    rewrite Ea. cbn [bind]. repeat split; assumption.
Qed.

(** *** Combining variants *)

Lemma merged_from_base (base : Result (list Diagram)) :
  merged_from (fmap diagram_combine base) base.
Proof.
  split; [reflexivity|]. destruct base as [out|e]; [|reflexivity].
  exists (diagram_combine out). split; [reflexivity|apply members_combine].
Qed.

(** C9. Each of the six combining variants is Combine applied to the whole
    sequence the corresponding base operation returns for the same
    arguments, and nothing else: the members of the merged diagram are that
    sequence, and it throws exactly when the base operation throws. *)
Theorem combine_variants_merge_base (ds : list Diagram) (g : R) (m : string) :
  merged_from (align_vertical_c ds m) (align_vertical ds m) /\
  merged_from (align_horizontal_c ds m) (align_horizontal ds m) /\
  merged_from (distribute_horizontal_c ds g) (distribute_horizontal ds g) /\
  merged_from (distribute_vertical_c ds g) (distribute_vertical ds g) /\
  merged_from (distribute_horizontal_and_align_c ds g m)
              (distribute_horizontal_and_align ds g m) /\
  merged_from (distribute_vertical_and_align_c ds g m)
              (distribute_vertical_and_align ds g m).
Proof. repeat split; apply merged_from_base. Qed.

(** ** Further properties of the layout operations *)

(** *** Horizontal alignment *)

Lemma zero_shift_same_place (d : Diagram) :
  same_place (translate d (V2 0 0)) d.
Proof.
  intros b. rewrite moved_y. destruct (get_anchor d b) as [px py].
  cbn [x y]. f_equal. lra.
Qed.

(** *** Which calls of the alignments return *)

Lemma vertical_anchor_known (m : string) :
  vertical_anchor m <> None <-> m = "top" \/ m = "center" \/ m = "bottom".
Proof.
  unfold vertical_anchor.
  destruct (String.eqb_spec m "top"); [split; [auto|discriminate]|].
  destruct (String.eqb_spec m "center"); [split; [auto|discriminate]|].
  destruct (String.eqb_spec m "bottom"); [split; [auto|discriminate]|].
  split; [congruence|]. intros [H|[H|H]]; contradiction.
Qed.

Lemma horizontal_anchor_known (m : string) :
  horizontal_anchor m <> None <-> m = "left" \/ m = "center" \/ m = "right".
Proof.
  unfold horizontal_anchor.
  destruct (String.eqb_spec m "left"); [split; [auto|discriminate]|].
  destruct (String.eqb_spec m "center"); [split; [auto|discriminate]|].
  destruct (String.eqb_spec m "right"); [split; [auto|discriminate]|].
  split; [congruence|]. intros [H|[H|H]]; contradiction.
Qed.

(** [align_vertical] returns a sequence exactly when the input is empty or
    the mode is one of the strings [top], [center], [bottom], compared
    character by character; [align_horizontal] exactly when the input is
    empty or the mode is one of [left], [center], [right].  In every other
    case the call throws. *)
Theorem align_returns_iff (ds : list Diagram) (m : string) :
  (returns (align_vertical ds m)
   <-> ds = [] \/ m = "top" \/ m = "center" \/ m = "bottom") /\
  (returns (align_horizontal ds m)
   <-> ds = [] \/ m = "left" \/ m = "center" \/ m = "right").
Proof.
  split.
  - rewrite <- vertical_anchor_known. split.
    + intros [out Hout]. destruct ds as [|d0 rest]; [left; reflexivity|].
      right. intros Hm. rewrite (align_vertical_unknown _ _ _ Hm) in Hout.
      discriminate.
    + intros [->|Hm]; [exists []; reflexivity|].
      apply align_vertical_returns, Hm.
  - rewrite <- horizontal_anchor_known. split.
    + intros [out Hout]. destruct ds as [|d0 rest]; [left; reflexivity|].
      right. intros Hm. rewrite (align_horizontal_unknown _ _ _ Hm) in Hout.
      discriminate.
    + intros [->|Hm]; [exists []; reflexivity|].
      apply align_horizontal_returns, Hm.
Qed.

(** *** The reference element and short sequences *)

(** The first element is the reference of an alignment and does not move:
    for a mode of the enumerated set, the first element of the output is
    the first input element translated by the zero vector, with every
    anchor where it was. *)
Theorem align_reference_stays (ds : list Diagram) (d0 : Diagram) (m : string) :
  nth_error ds 0 = Some d0 ->
  (vertical_anchor m <> None ->
   exists out, align_vertical ds m = Ok out /\
               nth_error out 0 = Some (translate d0 (V2 0 0))) /\
  (horizontal_anchor m <> None ->
   exists out, align_horizontal ds m = Ok out /\
               nth_error out 0 = Some (translate d0 (V2 0 0))) /\
  same_place (translate d0 (V2 0 0)) d0.
Proof.
  intros Hd0. destruct ds as [|d1 rest]; [discriminate|].
  injection Hd0 as ->.
  split; [|split; [|apply zero_shift_same_place]]; intros Hm.
  - destruct (vertical_anchor m) as [a|] eqn:E; [|congruence].
    eexists. split; [apply (align_vertical_map _ _ _ _ E)|].
    cbn. do 3 f_equal. lra.
  - destruct (horizontal_anchor m) as [a|] eqn:E; [|congruence].
    eexists. split; [apply (align_horizontal_map _ _ _ _ E)|].
    cbn. do 3 f_equal. lra.
Qed.

(** A sequence of at most one diagram is returned as it is by both
    distributions, whatever the gap: there is no predecessor to place
    anything against. *)
Theorem distribute_short_sequence (ds : list Diagram) (g : R) :
  (List.length ds <= 1)%nat ->
  distribute_horizontal ds g = Ok ds /\ distribute_vertical ds g = Ok ds.
Proof.
  destruct ds as [|d [|d' rest]]; cbn [List.length]; intros Hlen;
    [split; reflexivity|split; reflexivity|lia].
Qed.

(** *** Shapes and the other axis *)

Lemma image_shifted (d d' : Diagram) : image d d' -> shifted d d'.
Proof.
  induction 1 as [|d' w _ [v Hv]].
  - exists (V2 0 0). intros b. destruct (get_anchor d b) as [px py].
    unfold vadd. cbn [x y]. f_equal; lra.
  - exists (vadd v w). intros b. rewrite get_anchor_translate, Hv.
    unfold vadd. cbn [x y]. f_equal; lra.
Qed.

Lemma distribute_horizontal_and_align_image (ds : list Diagram) (g : R)
    (m : string) (out : list Diagram) :
  distribute_horizontal_and_align ds g m = Ok out -> Forall2 image ds out.
Proof.
  unfold distribute_horizontal_and_align. intros Hout.
  destruct (align_vertical ds m) as [aligned|e] eqn:Ea; [|discriminate].
  cbn [bind] in Hout.
  destruct (distribute_horizontal_image aligned g) as [out' [E H]].
  apply (Forall2_image_trans _ aligned);
    [exact (align_vertical_image _ _ _ Ea)|congruence].
Qed.

Lemma distribute_vertical_and_align_image (ds : list Diagram) (g : R)
    (m : string) (out : list Diagram) :
  distribute_vertical_and_align ds g m = Ok out -> Forall2 image ds out.
Proof.
  unfold distribute_vertical_and_align. intros Hout.
  destruct (align_horizontal ds m) as [aligned|e] eqn:Ea; [|discriminate].
  cbn [bind] in Hout.
  destruct (distribute_vertical_image aligned g) as [out' [E H]].
  apply (Forall2_image_trans _ aligned);
    [exact (align_horizontal_image _ _ _ Ea)|congruence].
Qed.

(** No operation changes the shape of a diagram: whichever of the six
    sequence-returning operations returned [out], each element of [out] has
    all nine anchors displaced from those of the input element of the same
    index by one and the same vector. *)
Theorem operations_shift_rigidly (ds : list Diagram) (g : R) (m : string)
    (out : list Diagram) :
  align_vertical ds m = Ok out \/
  align_horizontal ds m = Ok out \/
  distribute_horizontal ds g = Ok out \/
  distribute_vertical ds g = Ok out \/
  distribute_horizontal_and_align ds g m = Ok out \/
  distribute_vertical_and_align ds g m = Ok out ->
  Forall2 shifted ds out.
Proof.
  intros H.
  assert (Himg : Forall2 image ds out).
  { destruct H as [H|[H|[H|[H|[H|H]]]]].
    - exact (align_vertical_image _ _ _ H).
    - exact (align_horizontal_image _ _ _ H).
    - destruct (distribute_horizontal_image ds g) as [out' [E Hi]]. congruence.
    - destruct (distribute_vertical_image ds g) as [out' [E Hi]]. congruence.
    - exact (distribute_horizontal_and_align_image _ _ _ _ H).
    - exact (distribute_vertical_and_align_image _ _ _ _ H). }
  clear H. induction Himg as [|d d' l l' Hd _ IH]; constructor;
    [apply image_shifted, Hd|exact IH].
Qed.

Lemma chain_Forall2 (rel : Diagram -> Diagram -> Prop)
    (step : Diagram -> Diagram -> Diagram) :
  (forall prev this, rel this (step prev this)) ->
  forall rest prev, Forall2 rel rest (chain step prev rest).
Proof.
  intros Hstep rest.
  induction rest as [|this rest IH]; intros prev; constructor;
    [apply Hstep|apply IH].
Qed.

(** A distribution moves along its own axis only: [distribute_horizontal]
    leaves the y of every anchor of every element as it was, and
    [distribute_vertical] the x. *)
Theorem distribute_keeps_cross_axis (ds : list Diagram) (g : R) :
  (exists out,
      distribute_horizontal ds g = Ok out /\
      Forall2 (fun d d' => forall b, y (get_anchor d' b) = y (get_anchor d b))
              ds out) /\
  (exists out,
      distribute_vertical ds g = Ok out /\
      Forall2 (fun d d' => forall b, x (get_anchor d' b) = x (get_anchor d b))
              ds out).
Proof.
  split.
  - destruct ds as [|d0 rest]; [exists []; split; [reflexivity|constructor]|].
    eexists. split; [apply distribute_horizontal_chain|].
    constructor; [reflexivity|]. apply chain_Forall2.
    intros prev this b. unfold place_right. rewrite moved_x. reflexivity.
  - destruct ds as [|d0 rest]; [exists []; split; [reflexivity|constructor]|].
    eexists. split; [apply distribute_vertical_chain|].
    constructor; [reflexivity|]. apply chain_Forall2.
    intros prev this b. unfold place_below. rewrite moved_y. reflexivity.
Qed.

(** *** How the unknown-mode error travels *)

(** For a non-empty sequence and a mode outside the enumerated set, the
    composition and the combining variants throw the error of the
    alignment, unchanged; the distribution and Combine are not reached.
    On the empty sequence the compositions return the empty sequence for
    every mode. *)
Theorem unknown_mode_propagates (ds : list Diagram) (g : R) (m : string) :
  ds <> [] ->
  (vertical_anchor m = None ->
   let e := Error ("Unknown vertical alignment : " ++ m)%string in
   distribute_horizontal_and_align ds g m = Throw e /\
   align_vertical_c ds m = Throw e /\
   distribute_horizontal_and_align_c ds g m = Throw e) /\
  (horizontal_anchor m = None ->
   let e := Error ("Unknown horizontal alignment : " ++ m)%string in
   distribute_vertical_and_align ds g m = Throw e /\
   align_horizontal_c ds m = Throw e /\
   distribute_vertical_and_align_c ds g m = Throw e) /\
  distribute_horizontal_and_align [] g m = Ok [] /\
  distribute_vertical_and_align [] g m = Ok [].
Proof.
  intros Hne. destruct ds as [|d0 rest]; [congruence|].
  split; [|split; [|split; reflexivity]]; intros Hm e.
  - unfold distribute_horizontal_and_align_c, distribute_horizontal_and_align,
      align_vertical_c.
    rewrite (align_vertical_unknown _ _ _ Hm). repeat split.
  - unfold distribute_vertical_and_align_c, distribute_vertical_and_align,
      align_horizontal_c.
    rewrite (align_horizontal_unknown _ _ _ Hm). repeat split.
Qed.

(** *** The distribution as a left-to-right fold *)

Lemma last_nonempty {A : Type} (l : list A) :
  forall a d1 d2, last (a :: l) d1 = last (a :: l) d2.
Proof.
  induction l as [|b l IH]; intros a d1 d2; [reflexivity|].
  change (last (b :: l) d1 = last (b :: l) d2). apply IH.
Qed.

Lemma chain_app (step : Diagram -> Diagram -> Diagram) (l1 l2 : list Diagram) :
  forall prev,
    chain step prev (l1 ++ l2)
    = chain step prev l1 ++ chain step (last (chain step prev l1) prev) l2.
Proof.
  induction l1 as [|d l1 IH]; intros prev; [reflexivity|].
  cbn [app chain]. rewrite IH. cbn [app]. f_equal. f_equal. f_equal.
  destruct (chain step (step prev d) l1) as [|c cs]; [reflexivity|].
  change (last (c :: cs) (step prev d) = last (c :: cs) prev).
  apply last_nonempty.
Qed.

(** The placement of an element depends on the elements before it only:
    the output of a distribution on [ds ++ more] begins with its output on
    [ds], and appending diagrams adds one output element for each. *)
Theorem distribute_prefix (ds more : list Diagram) (g : R) :
  (exists out tail,
      distribute_horizontal ds g = Ok out /\
      distribute_horizontal (ds ++ more) g = Ok (out ++ tail) /\
      List.length tail = List.length more) /\
  (exists out tail,
      distribute_vertical ds g = Ok out /\
      distribute_vertical (ds ++ more) g = Ok (out ++ tail) /\
      List.length tail = List.length more).
Proof.
  split.
  - destruct ds as [|d0 rest].
    + destruct (distribute_horizontal_image more g) as [tail [E H]].
      exists [], tail. split; [reflexivity|]. split; [exact E|].
      symmetry. exact (Forall2_length H).
    + eexists. eexists. split; [apply distribute_horizontal_chain|].
      cbn [app]. rewrite distribute_horizontal_chain, chain_app.
      split; [reflexivity|apply chain_length].
  - destruct ds as [|d0 rest].
    + destruct (distribute_vertical_image more g) as [tail [E H]].
      exists [], tail. split; [reflexivity|]. split; [exact E|].
      symmetry. exact (Forall2_length H).
    + eexists. eexists. split; [apply distribute_vertical_chain|].
      cbn [app]. rewrite distribute_vertical_chain, chain_app.
      split; [reflexivity|apply chain_length].
Qed.

(** *** Sequences that are already spaced *)

Lemma linked_of_nth (ok : Diagram -> Diagram -> Prop) (l : list Diagram) :
  forall d0,
    (forall i prev next,
        nth_error (d0 :: l) i = Some prev ->
        nth_error (d0 :: l) (S i) = Some next ->
        ok prev next) ->
    linked ok d0 l.
Proof.
  induction l as [|d l IH]; intros d0 H; constructor.
  - apply (H 0%nat); reflexivity.
  - apply IH. intros i prev next Hp Hn. apply (H (S i)); assumption.
Qed.

Lemma chain_right_of_linked (g : R) (l : list Diagram) :
  forall prev prev',
    linked (fun p n => x (get_anchor n top_left) - x (get_anchor p top_right) = g)
           prev l ->
    x (get_anchor prev' top_right) = x (get_anchor prev top_right) ->
    chain (place_right g) prev' l = map (fun d => translate d (V2 0 0)) l.
Proof.
  induction l as [|d l IH]; intros prev prev' Hl Hp; [reflexivity|].
  inversion_clear Hl as [|p e l' Hok Hl'].
  cbn [chain map].
  assert (E : place_right g prev' d = translate d (V2 0 0))
    by (unfold place_right; do 2 f_equal; lra).
  rewrite E. f_equal. apply (IH d); [exact Hl'|].
  rewrite moved_x. cbn [x]. lra.
Qed.

Lemma chain_below_of_linked (g : R) (l : list Diagram) :
  forall prev prev',
    linked (fun p n => y (get_anchor p bottom_left) - y (get_anchor n top_left) = g)
           prev l ->
    y (get_anchor prev' bottom_left) = y (get_anchor prev bottom_left) ->
    chain (place_below g) prev' l = map (fun d => translate d (V2 0 0)) l.
Proof.
  induction l as [|d l IH]; intros prev prev' Hl Hp; [reflexivity|].
  inversion_clear Hl as [|p e l' Hok Hl'].
  cbn [chain map].
  assert (E : place_below g prev' d = translate d (V2 0 0))
    by (unfold place_below; do 2 f_equal; lra).
  rewrite E. f_equal. apply (IH d); [exact Hl'|].
  rewrite moved_y. cbn [y]. lra.
Qed.

(** A sequence that is already spaced by the gap is left in place by
    [distribute_horizontal]: the first element is returned as it is and
    every other element is translated by the zero vector. *)
Theorem distribute_horizontal_settled (d0 : Diagram) (rest : list Diagram) (g : R) :
  (forall i prev next,
      nth_error (d0 :: rest) i = Some prev ->
      nth_error (d0 :: rest) (S i) = Some next ->
      x (get_anchor next top_left) - x (get_anchor prev top_right) = g) ->
  distribute_horizontal (d0 :: rest) g
  = Ok (d0 :: map (fun d => translate d (V2 0 0)) rest).
Proof.
  intros H. rewrite distribute_horizontal_chain. do 2 f_equal.
  apply (chain_right_of_linked g rest d0 d0); [|reflexivity].
  apply linked_of_nth, H.
Qed.

(** A sequence that is already spaced by the gap is left in place by
    [distribute_vertical]. *)
Theorem distribute_vertical_settled (d0 : Diagram) (rest : list Diagram) (g : R) :
  (forall i prev next,
      nth_error (d0 :: rest) i = Some prev ->
      nth_error (d0 :: rest) (S i) = Some next ->
      y (get_anchor prev bottom_left) - y (get_anchor next top_left) = g) ->
  distribute_vertical (d0 :: rest) g
  = Ok (d0 :: map (fun d => translate d (V2 0 0)) rest).
Proof.
  intros H. rewrite distribute_vertical_chain. do 2 f_equal.
  apply (chain_below_of_linked g rest d0 d0); [|reflexivity].
  apply linked_of_nth, H.
Qed.

(** *** Only the anchors matter *)

Lemma chain_same_place (step : Diagram -> Diagram -> Diagram) :
  (forall prev prev' this this',
      same_place prev prev' -> same_place this this' ->
      same_place (step prev this) (step prev' this')) ->
  forall rest rest' prev prev',
    Forall2 same_place rest rest' -> same_place prev prev' ->
    Forall2 same_place (chain step prev rest) (chain step prev' rest').
Proof.
  intros Hstep rest rest' prev prev' Hrest. revert prev prev'.
  induction Hrest as [|d d' l l' Hd _ IH]; intros prev prev' Hprev;
    cbn [chain]; constructor.
  - apply Hstep; assumption.
  - apply IH. apply Hstep; assumption.
Qed.

Lemma place_right_same_place (g : R) (prev prev' this this' : Diagram) :
  same_place prev prev' -> same_place this this' ->
  same_place (place_right g prev this) (place_right g prev' this').
Proof.
  intros Hp Ht b. unfold place_right.
  rewrite !get_anchor_translate, (Hp top_right), (Ht top_left), (Ht b).
  reflexivity.
Qed.

Lemma place_below_same_place (g : R) (prev prev' this this' : Diagram) :
  same_place prev prev' -> same_place this this' ->
  same_place (place_below g prev this) (place_below g prev' this').
Proof.
  intros Hp Ht b. unfold place_below.
  rewrite !get_anchor_translate, (Hp bottom_left), (Ht top_left), (Ht b).
  reflexivity.
Qed.

(** The distributions read the anchors of the diagrams and nothing else:
    two sequences whose elements have, index by index, their anchors at the
    same points are distributed to sequences with that same property. *)
Theorem distribute_depends_on_anchors (ds ds' : list Diagram) (g : R) :
  Forall2 same_place ds ds' ->
  (exists out out',
      distribute_horizontal ds g = Ok out /\
      distribute_horizontal ds' g = Ok out' /\
      Forall2 same_place out out') /\
  (exists out out',
      distribute_vertical ds g = Ok out /\
      distribute_vertical ds' g = Ok out' /\
      Forall2 same_place out out').
Proof.
  intros H. destruct H as [|d0 d0' rest rest' Hd Hrest].
  - split; exists [], []; repeat split; constructor.
  - split; eexists; eexists.
    + split; [apply distribute_horizontal_chain|].
      split; [apply distribute_horizontal_chain|].
      constructor; [exact Hd|].
      apply chain_same_place; [apply place_right_same_place|exact Hrest|exact Hd].
    + split; [apply distribute_vertical_chain|].
      split; [apply distribute_vertical_chain|].
      constructor; [exact Hd|].
      apply chain_same_place; [apply place_below_same_place|exact Hrest|exact Hd].
Qed.

(** *** Alignment and distribution on different axes commute *)

Lemma chain_right_of_lifted (g ry : R) (a : Anchor) (rest : list Diagram) :
  forall prev prev',
    x (get_anchor prev' top_right) = x (get_anchor prev top_right) ->
    Forall2 same_place
      (chain (place_right g) prev'
         (map (fun d => translate d (V2 0 (ry - y (get_anchor d a)))) rest))
      (map (fun d => translate d (V2 0 (ry - y (get_anchor d a))))
         (chain (place_right g) prev rest)).
Proof.
  induction rest as [|this rest IH]; intros prev prev' Hp; cbn [map chain];
    constructor.
  - intros b. unfold place_right. repeat rewrite get_anchor_translate.
    unfold vadd. cbn [x y]. f_equal; lra.
  - apply IH. unfold place_right. repeat rewrite get_anchor_translate.
    unfold vadd. cbn [x y]. lra.
Qed.

Lemma chain_below_of_lifted (g rx : R) (a : Anchor) (rest : list Diagram) :
  forall prev prev',
    y (get_anchor prev' bottom_left) = y (get_anchor prev bottom_left) ->
    Forall2 same_place
      (chain (place_below g) prev'
         (map (fun d => translate d (V2 (rx - x (get_anchor d a)) 0)) rest))
      (map (fun d => translate d (V2 (rx - x (get_anchor d a)) 0))
         (chain (place_below g) prev rest)).
Proof.
  induction rest as [|this rest IH]; intros prev prev' Hp; cbn [map chain];
    constructor.
  - intros b. unfold place_below. repeat rewrite get_anchor_translate.
    unfold vadd. cbn [x y]. f_equal; lra.
  - apply IH. unfold place_below. repeat rewrite get_anchor_translate.
    unfold vadd. cbn [x y]. lra.
Qed.

(** Aligning vertically and then distributing horizontally puts every
    anchor of every element where distributing horizontally and then
    aligning vertically puts it: for a vertical mode both orders return,
    and their outputs agree in position index by index. *)
Theorem align_vertical_distribute_horizontal_commute (ds : list Diagram)
    (g : R) (m : string) (a : Anchor) :
  vertical_anchor m = Some a ->
  exists aligned out_ad distributed out_da,
    align_vertical ds m = Ok aligned /\
    distribute_horizontal aligned g = Ok out_ad /\
    distribute_horizontal ds g = Ok distributed /\
    align_vertical distributed m = Ok out_da /\
    Forall2 same_place out_ad out_da.
Proof.
  intros Hm. destruct ds as [|d0 rest].
  - exists [], [], [], []. repeat split; constructor.
  - do 4 eexists.
    split; [apply (align_vertical_map _ _ _ _ Hm)|]. cbn [map].
    split; [apply distribute_horizontal_chain|].
    split; [apply distribute_horizontal_chain|].
    split; [apply (align_vertical_map _ _ _ _ Hm)|]. cbn [map].
    constructor; [intros b; reflexivity|].
    apply chain_right_of_lifted. rewrite moved_y. reflexivity.
Qed.

(** Aligning horizontally and then distributing vertically puts every
    anchor of every element where distributing vertically and then aligning
    horizontally puts it. *)
Theorem align_horizontal_distribute_vertical_commute (ds : list Diagram)
    (g : R) (m : string) (a : Anchor) :
  horizontal_anchor m = Some a ->
  exists aligned out_ad distributed out_da,
    align_horizontal ds m = Ok aligned /\
    distribute_vertical aligned g = Ok out_ad /\
    distribute_vertical ds g = Ok distributed /\
    align_horizontal distributed m = Ok out_da /\
    Forall2 same_place out_ad out_da.
Proof.
  intros Hm. destruct ds as [|d0 rest].
  - exists [], [], [], []. repeat split; constructor.
  - do 4 eexists.
    split; [apply (align_horizontal_map _ _ _ _ Hm)|]. cbn [map].
    split; [apply distribute_vertical_chain|].
    split; [apply distribute_vertical_chain|].
    split; [apply (align_horizontal_map _ _ _ _ Hm)|]. cbn [map].
    constructor; [intros b; reflexivity|].
    apply chain_below_of_lifted. rewrite moved_x. reflexivity.
Qed.

(** *** Alignment treats the elements one by one *)

(** Each output element of an alignment is a function of the reference,
    the mode and the input element of the same index alone: for a mode of
    the enumerated set there is one function [f], fixed by the first
    element and the mode, such that whatever diagrams follow the first, the
    output is [f] applied to every element in order.  Rearranging the
    elements after the first therefore rearranges the output in the very
    same way. *)
Theorem align_order_irrelevant (d0 : Diagram) (m : string) :
  (vertical_anchor m <> None ->
   exists f,
     (forall rest, align_vertical (d0 :: rest) m = Ok (map f (d0 :: rest))) /\
     (forall rest rest', Permutation rest rest' ->
        Permutation (map f rest) (map f rest'))) /\
  (horizontal_anchor m <> None ->
   exists f,
     (forall rest, align_horizontal (d0 :: rest) m = Ok (map f (d0 :: rest))) /\
     (forall rest rest', Permutation rest rest' ->
        Permutation (map f rest) (map f rest'))).
Proof.
  split; intros Hm.
  - destruct (vertical_anchor m) as [a|] eqn:E; [|congruence].
    exists (fun d => translate d
                       (V2 0 (y (get_anchor d0 a) - y (get_anchor d a)))).
    split; [intros rest; apply (align_vertical_map _ _ _ _ E)|].
    intros rest rest' Hp. apply Permutation_map, Hp.
  - destruct (horizontal_anchor m) as [a|] eqn:E; [|congruence].
    exists (fun d => translate d
                       (V2 (x (get_anchor d0 a) - x (get_anchor d a)) 0)).
    split; [intros rest; apply (align_horizontal_map _ _ _ _ E)|].
    intros rest rest' Hp. apply Permutation_map, Hp.
Qed.

Lemma Forall2_map_pointwise (rel : Diagram -> Diagram -> Prop)
    (f f' : Diagram -> Diagram) (l : list Diagram) :
  (forall d, rel (f d) (f' d)) -> Forall2 rel (map f l) (map f' l).
Proof.
  intros H. induction l as [|d l IH]; constructor; [apply H|exact IH].
Qed.

(** The two alignments commute in position: aligning vertically and then
    horizontally puts every anchor of every element where aligning
    horizontally and then vertically puts it. *)
Theorem alignments_commute (ds : list Diagram) (mv mh : string)
    (av ah : Anchor) :
  vertical_anchor mv = Some av ->
  horizontal_anchor mh = Some ah ->
  exists v vh h hv,
    align_vertical ds mv = Ok v /\
    align_horizontal v mh = Ok vh /\
    align_horizontal ds mh = Ok h /\
    align_vertical h mv = Ok hv /\
    Forall2 same_place vh hv.
Proof.
  intros Hv Hh. destruct ds as [|d0 rest].
  - exists [], [], [], []. repeat split; constructor.
  - do 4 eexists.
    split; [apply (align_vertical_map _ _ _ _ Hv)|]. cbn [map].
    split; [apply (align_horizontal_map _ _ _ _ Hh)|].
    split; [apply (align_horizontal_map _ _ _ _ Hh)|]. cbn [map].
    split; [apply (align_vertical_map _ _ _ _ Hv)|].
    cbn [map]. constructor.
    + intros b. repeat rewrite get_anchor_translate. unfold vadd. cbn [x y].
      f_equal; lra.
    + rewrite !map_map. apply Forall2_map_pointwise. intros d b.
      repeat rewrite get_anchor_translate. unfold vadd. cbn [x y].
      f_equal; lra.
Qed.

End Layout.

Arguments align_vertical {Diagram} get_anchor translate diagrams alignment.
Arguments align_horizontal {Diagram} get_anchor translate diagrams alignment.
Arguments distribute_horizontal {Diagram} get_anchor translate diagrams space.
Arguments distribute_vertical {Diagram} get_anchor translate diagrams space.
Arguments distribute_horizontal_and_align {Diagram} get_anchor translate
  diagrams horizontal_space alignment.
Arguments distribute_vertical_and_align {Diagram} get_anchor translate
  diagrams vertical_space alignment.
Arguments align_vertical_c {Diagram} get_anchor translate diagram_combine
  diagrams alignment.
Arguments align_horizontal_c {Diagram} get_anchor translate diagram_combine
  diagrams alignment.
Arguments distribute_horizontal_c {Diagram} get_anchor translate diagram_combine
  diagrams space.
Arguments distribute_vertical_c {Diagram} get_anchor translate diagram_combine
  diagrams space.
Arguments distribute_horizontal_and_align_c {Diagram} get_anchor translate
  diagram_combine diagrams horizontal_space alignment.
Arguments distribute_vertical_and_align_c {Diagram} get_anchor translate
  diagram_combine diagrams vertical_space alignment.
Arguments image {Diagram} translate d _.
Arguments preserved {Diagram} translate ds r.
Arguments merged_from {Diagram} diagram_combine members c base.
Arguments pipeline {Diagram} align distribute diagrams gap mode.
Arguments same_place {Diagram} get_anchor d d'.
Arguments shifted {Diagram} get_anchor d d'.

(** ** The layout operations on concrete figures *)

Lemma figure_anchor_translate (d : Figure) (v : Vector2) (a : Anchor) :
  figure_anchor (figure_translate d v) a = vadd (figure_anchor d a) v.
Proof.
  destruct d as [l r t b ms], v as [vx vy], a; unfold vadd; cbn; f_equal; lra.
Qed.

Lemma figure_members_combine (ds : list Figure) :
  figure_members (figure_combine ds) = ds.
Proof.
  unfold figure_combine. destruct (figure_hull ds) as [[[l r] t] b].
  reflexivity.
Qed.

(** The scenario of the specification: three unit squares distributed
    horizontally with a gap of 10.  The first stays; the second starts at
    1 + 10 and the third at 12 + 10, each at its own height. *)
Example distribute_three_squares :
  exists b c,
    distribute_horizontal figure_anchor figure_translate three_squares 10
    = Ok [unit_square 0 0; b; c] /\
    figure_anchor b top_left = V2 11 3 /\
    figure_anchor b top_right = V2 12 3 /\
    figure_anchor c top_left = V2 22 (-4) /\
    figure_anchor c top_right = V2 23 (-4).
Proof.
  eexists. eexists. split; [reflexivity|].
  cbn. repeat split; f_equal; lra.
Qed.

(** [align_vertical] changes heights only; [distribute_vertical] keeps the
    sign of its gap opposite to the horizontal one. *)
Example align_three_squares_bottom :
  exists a b c,
    align_vertical figure_anchor figure_translate three_squares "bottom"
    = Ok [a; b; c] /\
    figure_anchor a bottom_left = V2 0 1 /\
    figure_anchor b bottom_left = V2 5 1 /\
    figure_anchor c bottom_left = V2 2 1.
Proof.
  do 3 eexists. split; [reflexivity|].
  cbn. repeat split; f_equal; lra.
Qed.

Example distribute_three_squares_vertical :
  exists b c,
    distribute_vertical figure_anchor figure_translate three_squares 10
    = Ok [unit_square 0 0; b; c] /\
    figure_anchor b top_left = V2 5 (-9) /\
    figure_anchor c top_left = V2 2 (-18).
Proof.
  eexists. eexists. split; [reflexivity|].
  cbn. repeat split; f_equal; lra.
Qed.

(** The claim C4 as the specification states it, for every sequence, fails
    on the empty one: with the mode [middle], which is in neither enumerated
    set, both alignments return the empty sequence and throw nothing. *)
Lemma align_unknown_mode_on_empty_returns :
  vertical_anchor "middle" = None /\
  horizontal_anchor "middle" = None /\
  align_vertical figure_anchor figure_translate [] "middle" = Ok [] /\
  align_horizontal figure_anchor figure_translate [] "middle" = Ok [] /\
  ~ (exists e, align_vertical figure_anchor figure_translate [] "middle"
               = Throw e) /\
  ~ (exists e, align_horizontal figure_anchor figure_translate [] "middle"
               = Throw e).
Proof.
  repeat split; intros [e He]; discriminate He.
Qed.

Lemma align_unknown_mode_throws_witness :
  [unit_square 0 0] <> [] /\
  vertical_anchor "middle" = None /\
  horizontal_anchor "middle" = None /\
  align_vertical figure_anchor figure_translate [unit_square 0 0] "middle"
  = Throw (Error "Unknown vertical alignment : middle") /\
  align_horizontal figure_anchor figure_translate [unit_square 0 0] "middle"
  = Throw (Error "Unknown horizontal alignment : middle").
Proof.
  assert (Hne : [unit_square 0 0] <> []) by discriminate.
  split; [exact Hne|]. split; [reflexivity|]. split; [reflexivity|].
  destruct (align_unknown_mode_throws Figure figure_anchor figure_translate
              [unit_square 0 0] "middle" Hne) as [Hv Hh].
  split; [exact (proj1 (Hv eq_refl))|exact (proj1 (Hh eq_refl))].
Defined.

Lemma operations_preserve_sequence_witness :
  vertical_anchor "center" <> None /\
  horizontal_anchor "center" <> None /\
  returns (align_vertical figure_anchor figure_translate three_squares "center") /\
  returns (distribute_horizontal_and_align figure_anchor figure_translate
             three_squares 10 "center") /\
  returns (align_horizontal figure_anchor figure_translate three_squares "center") /\
  returns (distribute_vertical_and_align figure_anchor figure_translate
             three_squares 10 "center") /\
  preserved figure_translate three_squares
    (distribute_horizontal_and_align figure_anchor figure_translate
       three_squares 10 "center").
Proof.
  assert (Hv : vertical_anchor "center" <> None) by discriminate.
  assert (Hh : horizontal_anchor "center" <> None) by discriminate.
  destruct (operations_preserve_sequence Figure figure_anchor figure_translate
              three_squares 10 "center")
    as [[_ [_ [_ [_ [Hp _]]]]] [_ [Hrv Hrh]]].
  split; [exact Hv|]. split; [exact Hh|].
  split; [exact (proj1 (Hrv Hv))|]. split; [exact (proj2 (Hrv Hv))|].
  split; [exact (proj1 (Hrh Hh))|]. split; [exact (proj2 (Hrh Hh))|].
  exact Hp.
Defined.

Lemma compositions_are_pipelines_witness :
  vertical_anchor "bottom" <> None /\
  horizontal_anchor "right" <> None /\
  (exists aligned out,
      align_vertical figure_anchor figure_translate three_squares "bottom"
      = Ok aligned /\
      distribute_horizontal figure_anchor figure_translate aligned 10 = Ok out /\
      distribute_horizontal_and_align figure_anchor figure_translate
        three_squares 10 "bottom" = Ok out) /\
  (exists aligned out,
      align_horizontal figure_anchor figure_translate three_squares "right"
      = Ok aligned /\
      distribute_vertical figure_anchor figure_translate aligned 10 = Ok out /\
      distribute_vertical_and_align figure_anchor figure_translate
        three_squares 10 "right" = Ok out).
Proof.
  assert (Hv : vertical_anchor "bottom" <> None) by discriminate.
  assert (Hh : horizontal_anchor "right" <> None) by discriminate.
  split; [exact Hv|]. split; [exact Hh|]. split.
  - exact (proj1 (proj2 (proj2
             (compositions_are_pipelines Figure figure_anchor figure_translate
                three_squares 10 "bottom"))) Hv).
  - exact (proj2 (proj2 (proj2
             (compositions_are_pipelines Figure figure_anchor figure_translate
                three_squares 10 "right"))) Hh).
Defined.

Lemma combine_variants_merge_base_witness :
  merged_from figure_combine figure_members
    (align_vertical_c figure_anchor figure_translate figure_combine
       three_squares "top")
    (align_vertical figure_anchor figure_translate three_squares "top") /\
  merged_from figure_combine figure_members
    (distribute_horizontal_and_align_c figure_anchor figure_translate
       figure_combine three_squares 10 "top")
    (distribute_horizontal_and_align figure_anchor figure_translate
       three_squares 10 "top").
Proof.
  destruct (combine_variants_merge_base Figure figure_anchor figure_translate
              figure_combine figure_members figure_members_combine
              three_squares 10 "top")
    as [Hav [_ [_ [_ [Hdha _]]]]].
  split; [exact Hav|exact Hdha].
Defined.

Lemma align_reference_stays_witness :
  nth_error three_squares 0 = Some (unit_square 0 0) /\
  vertical_anchor "bottom" <> None /\
  horizontal_anchor "center" <> None /\
  (exists out,
      align_vertical figure_anchor figure_translate three_squares "bottom"
      = Ok out /\
      nth_error out 0 = Some (figure_translate (unit_square 0 0) (V2 0 0))) /\
  (exists out,
      align_horizontal figure_anchor figure_translate three_squares "center"
      = Ok out /\
      nth_error out 0 = Some (figure_translate (unit_square 0 0) (V2 0 0))) /\
  same_place figure_anchor (figure_translate (unit_square 0 0) (V2 0 0))
             (unit_square 0 0).
Proof.
  assert (Hv : vertical_anchor "bottom" <> None) by discriminate.
  assert (Hh : horizontal_anchor "center" <> None) by discriminate.
  split; [reflexivity|]. split; [exact Hv|]. split; [exact Hh|].
  destruct (align_reference_stays Figure figure_anchor figure_translate
              figure_anchor_translate three_squares (unit_square 0 0)
              "bottom" eq_refl) as [Hav [_ Hsame]].
  destruct (align_reference_stays Figure figure_anchor figure_translate
              figure_anchor_translate three_squares (unit_square 0 0)
              "center" eq_refl) as [_ [Hah _]].
  split; [exact (Hav Hv)|]. split; [exact (Hah Hh)|exact Hsame].
Defined.

Lemma distribute_short_sequence_witness :
  (List.length [unit_square 5 3] <= 1)%nat /\
  distribute_horizontal figure_anchor figure_translate [unit_square 5 3] 10
  = Ok [unit_square 5 3] /\
  distribute_vertical figure_anchor figure_translate [unit_square 5 3] 10
  = Ok [unit_square 5 3].
Proof.
  assert (Hlen : (List.length [unit_square 5 3] <= 1)%nat) by (simpl; lia).
  split; [exact Hlen|].
  exact (distribute_short_sequence Figure figure_anchor figure_translate
           [unit_square 5 3] 10 Hlen).
Defined.

Lemma operations_shift_rigidly_witness :
  exists out,
    distribute_horizontal_and_align figure_anchor figure_translate
      three_squares 10 "center" = Ok out /\
    Forall2 (shifted figure_anchor) three_squares out.
Proof.
  eexists. split; [reflexivity|].
  apply (operations_shift_rigidly Figure figure_anchor figure_translate
           figure_anchor_translate three_squares 10 "center").
  do 4 right. left. reflexivity.
Defined.

Lemma distribute_keeps_cross_axis_witness :
  (exists out,
      distribute_horizontal figure_anchor figure_translate three_squares 10
      = Ok out /\
      Forall2 (fun d d' => forall b, y (figure_anchor d' b) = y (figure_anchor d b))
              three_squares out) /\
  (exists out,
      distribute_vertical figure_anchor figure_translate three_squares 10
      = Ok out /\
      Forall2 (fun d d' => forall b, x (figure_anchor d' b) = x (figure_anchor d b))
              three_squares out).
Proof.
  apply (distribute_keeps_cross_axis Figure figure_anchor figure_translate
           figure_anchor_translate three_squares 10).
Defined.

Lemma unknown_mode_propagates_witness :
  three_squares <> [] /\
  vertical_anchor "Top" = None /\
  horizontal_anchor "Top" = None /\
  distribute_horizontal_and_align figure_anchor figure_translate
    three_squares 10 "Top"
  = Throw (Error "Unknown vertical alignment : Top") /\
  distribute_vertical_and_align_c figure_anchor figure_translate figure_combine
    three_squares 10 "Top"
  = Throw (Error "Unknown horizontal alignment : Top").
Proof.
  assert (Hne : three_squares <> []) by discriminate.
  split; [exact Hne|]. split; [reflexivity|]. split; [reflexivity|].
  destruct (unknown_mode_propagates Figure figure_anchor figure_translate
              figure_combine three_squares 10 "Top" Hne) as [Hv [Hh _]].
  split; [exact (proj1 (Hv eq_refl))|exact (proj2 (proj2 (Hh eq_refl)))].
Defined.

Lemma distribute_horizontal_settled_witness :
  distribute_horizontal figure_anchor figure_translate
    [unit_square 0 0; unit_square 11 3] 10
  = Ok [unit_square 0 0; figure_translate (unit_square 11 3) (V2 0 0)].
Proof.
  apply (distribute_horizontal_settled Figure figure_anchor figure_translate
           figure_anchor_translate (unit_square 0 0) [unit_square 11 3] 10).
  intros [|[|i]] prev next Hp Hn; cbn in Hp, Hn; try discriminate.
  injection Hp as <-. injection Hn as <-. cbn. lra.
Defined.

Lemma distribute_vertical_settled_witness :
  distribute_vertical figure_anchor figure_translate
    [unit_square 0 0; unit_square 5 (-9)] 10
  = Ok [unit_square 0 0; figure_translate (unit_square 5 (-9)) (V2 0 0)].
Proof.
  apply (distribute_vertical_settled Figure figure_anchor figure_translate
           figure_anchor_translate (unit_square 0 0) [unit_square 5 (-9)] 10).
  intros [|[|i]] prev next Hp Hn; cbn in Hp, Hn; try discriminate.
  injection Hp as <-. injection Hn as <-. cbn. lra.
Defined.

(** A square and a composite with the same extents are placed alike. *)
Lemma distribute_depends_on_anchors_witness :
  Forall2 (same_place figure_anchor)
    [unit_square 0 0; unit_square 5 3]
    [unit_square 0 0; figure 5 (5 + 1) 3 (3 + 1) [unit_square 7 7]] /\
  exists out out',
    distribute_horizontal figure_anchor figure_translate
      [unit_square 0 0; unit_square 5 3] 10 = Ok out /\
    distribute_horizontal figure_anchor figure_translate
      [unit_square 0 0; figure 5 (5 + 1) 3 (3 + 1) [unit_square 7 7]] 10
    = Ok out' /\
    Forall2 (same_place figure_anchor) out out'.
Proof.
  assert (H : Forall2 (same_place figure_anchor)
                [unit_square 0 0; unit_square 5 3]
                [unit_square 0 0; figure 5 (5 + 1) 3 (3 + 1) [unit_square 7 7]]).
  { repeat constructor; intros b; reflexivity. }
  split; [exact H|].
  exact (proj1 (distribute_depends_on_anchors Figure figure_anchor
                  figure_translate figure_anchor_translate _ _ 10 H)).
Defined.

Lemma align_vertical_distribute_horizontal_commute_witness :
  vertical_anchor "bottom" = Some bottom_left /\
  exists aligned out_ad distributed out_da,
    align_vertical figure_anchor figure_translate three_squares "bottom"
    = Ok aligned /\
    distribute_horizontal figure_anchor figure_translate aligned 10
    = Ok out_ad /\
    distribute_horizontal figure_anchor figure_translate three_squares 10
    = Ok distributed /\
    align_vertical figure_anchor figure_translate distributed "bottom"
    = Ok out_da /\
    Forall2 (same_place figure_anchor) out_ad out_da.
Proof.
  split; [reflexivity|].
  apply (align_vertical_distribute_horizontal_commute Figure figure_anchor
           figure_translate figure_anchor_translate three_squares 10
           "bottom" bottom_left).
  reflexivity.
Defined.

Lemma align_horizontal_distribute_vertical_commute_witness :
  horizontal_anchor "right" = Some top_right /\
  exists aligned out_ad distributed out_da,
    align_horizontal figure_anchor figure_translate three_squares "right"
    = Ok aligned /\
    distribute_vertical figure_anchor figure_translate aligned 10
    = Ok out_ad /\
    distribute_vertical figure_anchor figure_translate three_squares 10
    = Ok distributed /\
    align_horizontal figure_anchor figure_translate distributed "right"
    = Ok out_da /\
    Forall2 (same_place figure_anchor) out_ad out_da.
Proof.
  split; [reflexivity|].
  apply (align_horizontal_distribute_vertical_commute Figure figure_anchor
           figure_translate figure_anchor_translate three_squares 10
           "right" top_right).
  reflexivity.
Defined.

Lemma alignments_commute_witness :
  vertical_anchor "top" = Some top_left /\
  horizontal_anchor "right" = Some top_right /\
  exists v vh h hv,
    align_vertical figure_anchor figure_translate three_squares "top" = Ok v /\
    align_horizontal figure_anchor figure_translate v "right" = Ok vh /\
    align_horizontal figure_anchor figure_translate three_squares "right"
    = Ok h /\
    align_vertical figure_anchor figure_translate h "top" = Ok hv /\
    Forall2 (same_place figure_anchor) vh hv.
Proof.
  split; [reflexivity|]. split; [reflexivity|].
  apply (alignments_commute Figure figure_anchor figure_translate
           figure_anchor_translate three_squares "top" "right"
           top_left top_right); reflexivity.
Defined.

Lemma align_order_irrelevant_witness :
  vertical_anchor "top" <> None /\
  exists f,
    align_vertical figure_anchor figure_translate
      [unit_square 0 0; unit_square 5 3; unit_square 2 (-4)] "top"
    = Ok [f (unit_square 0 0); f (unit_square 5 3); f (unit_square 2 (-4))] /\
    align_vertical figure_anchor figure_translate
      [unit_square 0 0; unit_square 2 (-4); unit_square 5 3] "top"
    = Ok [f (unit_square 0 0); f (unit_square 2 (-4)); f (unit_square 5 3)].
Proof.
  assert (Hm : vertical_anchor "top" <> None) by discriminate.
  split; [exact Hm|].
  destruct (proj1 (align_order_irrelevant Figure figure_anchor figure_translate
                     (unit_square 0 0) "top") Hm) as [f [Hf _]].
  exists f. split; apply Hf.
Defined.

(** * The layout operations in the arithmetic of the engine

    A JavaScript [number] is an IEEE 754 binary64 value, and [-] and [+] on
    numbers round to the nearest such value.  This module embeds the four
    operations that compute with numbers once more, with [float] and its
    rounding operations in the place of the exact reals, for the properties
    that depend on what the subtraction and the addition return. *)

Module Double.

#[local] Open Scope float_scope.
#[local] Set Warnings "-inexact-float".

(** Modelled from the spec: the [Vector2] class and its constructor function
    [V2] of [vector.ts], with the coordinates the engine stores. *)
Record Vector2 : Type := V2 { x : float; y : float }.

(** Modelled from the spec: the addition of a displacement to a point, in
    the arithmetic of the engine. *)
Definition vadd (p v : Vector2) : Vector2 := V2 (x p + x v) (y p + y v).

(** [finite r]: [r] is a number (not NaN) and not an infinity. *)
Definition finite (r : float) : Prop :=
  match Prim2SF r with
  | S754_zero _ | S754_finite _ _ _ => True
  | S754_infinity _ | S754_nan => False
  end.


(** Modelled from the spec: a diagram of [diagram.ts] as far as the layout
    code can see it, the coordinates of the 3x3 grid of its anchors: three
    abscissas and three ordinates. *)
Record Frame : Type := frame {
  left : float; center_x : float; right : float;
  top : float; center_y : float; bottom : float
}.

(** Modelled from the spec: [get_anchor] of [diagram.ts] on the grid. *)
Definition frame_anchor (d : Frame) (a : Anchor) : Vector2 :=
  match a with
  | top_left => V2 (left d) (top d)
  | top_center => V2 (center_x d) (top d)
  | top_right => V2 (right d) (top d)
  | center_left => V2 (left d) (center_y d)
  | center_center => V2 (center_x d) (center_y d)
  | center_right => V2 (right d) (center_y d)
  | bottom_left => V2 (left d) (bottom d)
  | bottom_center => V2 (center_x d) (bottom d)
  | bottom_right => V2 (right d) (bottom d)
  end.

(** Modelled from the spec: [translate] of [diagram.ts], which adds the
    displacement to every coordinate. *)
Definition frame_translate (d : Frame) (v : Vector2) : Frame :=
  frame (left d + x v) (center_x d + x v) (right d + x v)
        (top d + y v) (center_y d + y v) (bottom d + y v).

(** The frame of a unit square whose top-left corner is at [(l, t)]. *)
Definition unit_frame (l t : float) : Frame :=
  frame l (l + 0.5) (l + 1) t (t + 0.5) (t + 1).

Section Layout.

(** The interface of [diagram.ts] the layout code consumes. *)
Variable Diagram : Type.
Variable get_anchor : Diagram -> Anchor -> Vector2.
Variable translate : Diagram -> Vector2 -> Diagram.

Definition align_vertical (diagrams : list Diagram) (alignment : string)
    : Result (list Diagram) :=
  match diagrams with
  | [] => Ok diagrams
  | d0 :: _ =>
    if (alignment =? "top")%string then
      let top_y := y (get_anchor d0 top_left) in
      Ok (map (fun d => translate d (V2 0 (top_y - y (get_anchor d top_left))))
              diagrams)
    else if (alignment =? "center")%string then
      let center_y := y (get_anchor d0 center_left) in
      Ok (map (fun d => translate d (V2 0 (center_y - y (get_anchor d center_left))))
              diagrams)
    else if (alignment =? "bottom")%string then
      let bottom_y := y (get_anchor d0 bottom_left) in
      Ok (map (fun d => translate d (V2 0 (bottom_y - y (get_anchor d bottom_left))))
              diagrams)
    else
      Throw (Error ("Unknown vertical alignment : " ++ alignment)%string)
  end.

Definition align_horizontal (diagrams : list Diagram) (alignment : string)
    : Result (list Diagram) :=
  match diagrams with
  | [] => Ok diagrams
  | d0 :: _ =>
    if (alignment =? "left")%string then
      let left_x := x (get_anchor d0 top_left) in
      Ok (map (fun d => translate d (V2 (left_x - x (get_anchor d top_left)) 0))
              diagrams)
    else if (alignment =? "center")%string then
      let center_x := x (get_anchor d0 top_center) in
      Ok (map (fun d => translate d (V2 (center_x - x (get_anchor d top_center)) 0))
              diagrams)
    else if (alignment =? "right")%string then
      let right_x := x (get_anchor d0 top_right) in
      Ok (map (fun d => translate d (V2 (right_x - x (get_anchor d top_right)) 0))
              diagrams)
    else
      Throw (Error ("Unknown horizontal alignment : " ++ alignment)%string)
  end.

Definition distribute_horizontal_body (diagrams : list Diagram) (space : float)
    (i : nat) (distributed_diagrams : list Diagram) : Result (list Diagram) :=
  let* prev_diagram := at_index distributed_diagrams (i - 1)%nat in
  let* this_diagram := at_index diagrams i in
  let prev_right := x (get_anchor prev_diagram top_right) in
  let this_left := x (get_anchor this_diagram top_left) in
  let dx := prev_right - this_left + space in
  Ok (distributed_diagrams ++ [translate this_diagram (V2 dx 0)]).

Definition distribute_horizontal (diagrams : list Diagram) (space : float)
    : Result (list Diagram) :=
  match diagrams with
  | [] => Ok diagrams
  | d0 :: _ =>
    for_range 1 (List.length diagrams - 1)%nat
      (distribute_horizontal_body diagrams space) [d0]
  end.

Definition distribute_vertical_body (diagrams : list Diagram) (space : float)
    (i : nat) (distributed_diagrams : list Diagram) : Result (list Diagram) :=
  let* prev_diagram := at_index distributed_diagrams (i - 1)%nat in
  let* this_diagram := at_index diagrams i in
  let prev_bottom := y (get_anchor prev_diagram bottom_left) in
  let this_top := y (get_anchor this_diagram top_left) in
  let dy := prev_bottom - this_top - space in
  Ok (distributed_diagrams ++ [translate this_diagram (V2 0 dy)]).

Definition distribute_vertical (diagrams : list Diagram) (space : float)
    : Result (list Diagram) :=
  match diagrams with
  | [] => Ok diagrams
  | d0 :: _ =>
    for_range 1 (List.length diagrams - 1)%nat
      (distribute_vertical_body diagrams space) [d0]
  end.

(** One step of a distribution: where [this] goes, next to the placed
    [prev]. *)
Definition place_right (space : float) (prev this : Diagram) : Diagram :=
  translate this
    (V2 (x (get_anchor prev top_right) - x (get_anchor this top_left) + space) 0).

Definition place_below (space : float) (prev this : Diagram) : Diagram :=
  translate this
    (V2 0 (y (get_anchor prev bottom_left) - y (get_anchor this top_left) - space)).

(** Translate (specification, sections 2 and 3): the translated diagram is
    the original shifted by the displacement, at every anchor; the sum is
    the rounded sum of the engine. *)
Hypothesis get_anchor_translate : forall d v a,
  get_anchor (translate d v) a = vadd (get_anchor d a) v.

(** *** Two facts of binary64 arithmetic *)


Lemma sub_diag (r : float) : finite r -> r - r = 0.
Proof.
  unfold finite. intros H. apply Prim2SF_inj. rewrite sub_spec.
  change (Prim2SF 0) with (S754_zero false).
  destruct (Prim2SF r) as [[|]| [|] | | s m e];
    try reflexivity; try contradiction.
  unfold SF64sub, SFsub. rewrite Z.min_id. unfold shl_align.
  match goal with |- context [match ?t with Z.neg _ => _ | _ => _ end] =>
    replace t with 0%Z by (symmetry; apply Z.sub_diag) end.
  cbn [fst].
  match goal with |- binary_normalize _ _ ?t _ _ = _ =>
    replace t with 0%Z by (symmetry; apply Z.sub_diag) end.
  reflexivity.
Qed.

(** *** What the operations compute *)

Lemma align_vertical_map_double (d0 : Diagram) (rest : list Diagram)
    (m : string) (a : Anchor) :
  vertical_anchor m = Some a ->
  align_vertical (d0 :: rest) m
  = Ok (map (fun d => translate d
               (V2 0 (y (get_anchor d0 a) - y (get_anchor d a))))
            (d0 :: rest)).
Proof.
  unfold vertical_anchor, align_vertical.
  destruct (m =? "top")%string; [intros [= <-]; reflexivity|].
  destruct (m =? "center")%string; [intros [= <-]; reflexivity|].
  destruct (m =? "bottom")%string; [intros [= <-]; reflexivity|].
  discriminate.
Qed.

Lemma align_horizontal_map_double (d0 : Diagram) (rest : list Diagram)
    (m : string) (a : Anchor) :
  horizontal_anchor m = Some a ->
  align_horizontal (d0 :: rest) m
  = Ok (map (fun d => translate d
               (V2 (x (get_anchor d0 a) - x (get_anchor d a)) 0))
            (d0 :: rest)).
Proof.
  unfold horizontal_anchor, align_horizontal.
  destruct (m =? "left")%string; [intros [= <-]; reflexivity|].
  destruct (m =? "center")%string; [intros [= <-]; reflexivity|].
  destruct (m =? "right")%string; [intros [= <-]; reflexivity|].
  discriminate.
Qed.

Lemma distribute_horizontal_chain_double (d0 : Diagram) (rest : list Diagram)
    (space : float) :
  distribute_horizontal (d0 :: rest) space
  = Ok (d0 :: chain Diagram (place_right space) d0 rest).
Proof.
  unfold distribute_horizontal.
  replace (List.length (d0 :: rest) - 1)%nat with (List.length rest)
    by (simpl; lia).
  apply (for_range_chain Diagram (place_right space)
           (fun ds => distribute_horizontal_body ds space)
           (fun _ _ _ => eq_refl) rest [d0] [] d0).
  reflexivity.
Qed.

Lemma distribute_vertical_chain_double (d0 : Diagram) (rest : list Diagram)
    (space : float) :
  distribute_vertical (d0 :: rest) space
  = Ok (d0 :: chain Diagram (place_below space) d0 rest).
Proof.
  unfold distribute_vertical.
  replace (List.length (d0 :: rest) - 1)%nat with (List.length rest)
    by (simpl; lia).
  apply (for_range_chain Diagram (place_below space)
           (fun ds => distribute_vertical_body ds space)
           (fun _ _ _ => eq_refl) rest [d0] [] d0).
  reflexivity.
Qed.

(** *** Alignment *)


(** C7, as the code has it. [align_vertical] applied with the same mode to
    its own output translates element [i] by [(0, r - y_i)], the rounded
    difference of the y of the mode's anchor on the first and on the
    [i]-th element of that output.  The displacement is the zero vector
    for every element that the first application put exactly at the
    finite [r], the first element among them; an element that rounding
    left beside [r] is moved again. *)
Theorem align_vertical_again (ds : list Diagram) (m : string) (a : Anchor) :
  vertical_anchor m = Some a ->
  exists out1 out2,
    align_vertical ds m = Ok out1 /\
    align_vertical out1 m = Ok out2 /\
    List.length out2 = List.length out1 /\
    forall r0, nth_error out1 0 = Some r0 ->
      forall i d1, nth_error out1 i = Some d1 ->
        nth_error out2 i
        = Some (translate d1
                  (V2 0 (y (get_anchor r0 a) - y (get_anchor d1 a)))) /\
        (y (get_anchor d1 a) = y (get_anchor r0 a) ->
         finite (y (get_anchor r0 a)) ->
         nth_error out2 i = Some (translate d1 (V2 0 0))).
Proof.
  intros Hm. destruct ds as [|d0 rest].
  - exists [], []. repeat split; try reflexivity; discriminate.
  - set (f := fun d => translate d
                (V2 0 (y (get_anchor d0 a) - y (get_anchor d a)))).
    exists (map f (d0 :: rest)).
    exists (map (fun d => translate d
                   (V2 0 (y (get_anchor (f d0) a) - y (get_anchor d a))))
                (map f (d0 :: rest))).
    split; [apply (align_vertical_map_double _ _ _ _ Hm)|].
    split; [cbn [map]; apply (align_vertical_map_double _ _ _ _ Hm)|].
    split; [apply length_map|].
    intros r0 Hr0 i d1 Hi. cbn [map nth_error] in Hr0. injection Hr0 as <-.
    assert (E : nth_error
                  (map (fun d => translate d
                          (V2 0 (y (get_anchor (f d0) a) - y (get_anchor d a))))
                       (map f (d0 :: rest))) i
                = Some (translate d1
                          (V2 0 (y (get_anchor (f d0) a) - y (get_anchor d1 a)))))
      by (rewrite nth_error_map, Hi; reflexivity).
    split; [exact E|].
    intros Heq Hfin. rewrite E, Heq, (sub_diag _ Hfin). reflexivity.
Qed.


(** [align_horizontal] applied with the same mode to its own output
    translates element [i] by [(r - x_i, 0)], the rounded difference of the
    x of the mode's anchor on the first and on the [i]-th element of that
    output: the zero vector for every element the first application put
    exactly at the finite [r], the first element among them. *)
Theorem align_horizontal_again (ds : list Diagram) (m : string) (a : Anchor) :
  horizontal_anchor m = Some a ->
  exists out1 out2,
    align_horizontal ds m = Ok out1 /\
    align_horizontal out1 m = Ok out2 /\
    List.length out2 = List.length out1 /\
    forall r0, nth_error out1 0 = Some r0 ->
      forall i d1, nth_error out1 i = Some d1 ->
        nth_error out2 i
        = Some (translate d1
                  (V2 (x (get_anchor r0 a) - x (get_anchor d1 a)) 0)) /\
        (x (get_anchor d1 a) = x (get_anchor r0 a) ->
         finite (x (get_anchor r0 a)) ->
         nth_error out2 i = Some (translate d1 (V2 0 0))).
Proof.
  intros Hm. destruct ds as [|d0 rest].
  - exists [], []. repeat split; try reflexivity; discriminate.
  - set (f := fun d => translate d
                (V2 (x (get_anchor d0 a) - x (get_anchor d a)) 0)).
    exists (map f (d0 :: rest)).
    exists (map (fun d => translate d
                   (V2 (x (get_anchor (f d0) a) - x (get_anchor d a)) 0))
                (map f (d0 :: rest))).
    split; [apply (align_horizontal_map_double _ _ _ _ Hm)|].
    split; [cbn [map]; apply (align_horizontal_map_double _ _ _ _ Hm)|].
    split; [apply length_map|].
    intros r0 Hr0 i d1 Hi. cbn [map nth_error] in Hr0. injection Hr0 as <-.
    assert (E : nth_error
                  (map (fun d => translate d
                          (V2 (x (get_anchor (f d0) a) - x (get_anchor d a)) 0))
                       (map f (d0 :: rest))) i
                = Some (translate d1
                          (V2 (x (get_anchor (f d0) a) - x (get_anchor d1 a)) 0)))
      by (rewrite nth_error_map, Hi; reflexivity).
    split; [exact E|].
    intros Heq Hfin. rewrite E, Heq, (sub_diag _ Hfin). reflexivity.
Qed.

(** *** Distribution *)

(** C2, as the code has it. [distribute_horizontal] returns a sequence of
    the length of its input whose first element is the input's first
    element itself; for [i >= 1] its element [i] is the input's element [i]
    translated by [(dx, 0)] with [dx = prev_right - this_left + gap]
    computed in the arithmetic of the engine, [prev] being the output's
    element [i-1].  The top-left x of the placed element is therefore
    [this_left + (prev_right - this_left + gap)], each operation rounded:
    [gap] after [prev_right] when nothing is rounded away. *)
Theorem distribute_horizontal_moves (ds : list Diagram) (gap : float) :
  exists out,
    distribute_horizontal ds gap = Ok out /\
    List.length out = List.length ds /\
    nth_error out 0 = nth_error ds 0 /\
    (forall i prev this,
        nth_error out i = Some prev ->
        nth_error ds (S i) = Some this ->
        nth_error out (S i)
        = Some (translate this
                  (V2 (x (get_anchor prev top_right)
                       - x (get_anchor this top_left) + gap) 0))) /\
    (forall i prev this next,
        nth_error out i = Some prev ->
        nth_error ds (S i) = Some this ->
        nth_error out (S i) = Some next ->
        x (get_anchor next top_left)
        = x (get_anchor this top_left)
          + (x (get_anchor prev top_right) - x (get_anchor this top_left) + gap)).
Proof.
  destruct ds as [|d0 rest].
  - exists []. repeat split; try reflexivity; intros [|i]; discriminate.
  - exists (d0 :: chain Diagram (place_right gap) d0 rest).
    split; [apply distribute_horizontal_chain_double|].
    split; [simpl; rewrite chain_length; reflexivity|].
    split; [reflexivity|].
    assert (Hnth : forall i prev this,
               nth_error (d0 :: chain Diagram (place_right gap) d0 rest) i
               = Some prev ->
               nth_error (d0 :: rest) (S i) = Some this ->
               nth_error (d0 :: chain Diagram (place_right gap) d0 rest) (S i)
               = Some (place_right gap prev this))
      by (intros i prev this; apply chain_nth).
    split; [exact Hnth|].
    intros i prev this next Hprev Hthis Hnext.
    rewrite (Hnth i prev this Hprev Hthis) in Hnext. injection Hnext as <-.
    unfold place_right. rewrite get_anchor_translate. reflexivity.
Qed.

(** C3, as the code has it. [distribute_vertical] returns a sequence of the
    length of its input whose first element is the input's first element
    itself; for [i >= 1] its element [i] is the input's element [i]
    translated by [(0, dy)] with [dy = prev_bottom - this_top - gap]
    computed in the arithmetic of the engine, [prev] being the output's
    element [i-1].  The top-left y of the placed element is therefore
    [this_top + (prev_bottom - this_top - gap)], each operation rounded:
    [gap] before [prev_bottom] when nothing is rounded away. *)
Theorem distribute_vertical_moves (ds : list Diagram) (gap : float) :
  exists out,
    distribute_vertical ds gap = Ok out /\
    List.length out = List.length ds /\
    nth_error out 0 = nth_error ds 0 /\
    (forall i prev this,
        nth_error out i = Some prev ->
        nth_error ds (S i) = Some this ->
        nth_error out (S i)
        = Some (translate this
                  (V2 0 (y (get_anchor prev bottom_left)
                         - y (get_anchor this top_left) - gap)))) /\
    (forall i prev this next,
        nth_error out i = Some prev ->
        nth_error ds (S i) = Some this ->
        nth_error out (S i) = Some next ->
        y (get_anchor next top_left)
        = y (get_anchor this top_left)
          + (y (get_anchor prev bottom_left) - y (get_anchor this top_left) - gap)).
Proof.
  destruct ds as [|d0 rest].
  - exists []. repeat split; try reflexivity; intros [|i]; discriminate.
  - exists (d0 :: chain Diagram (place_below gap) d0 rest).
    split; [apply distribute_vertical_chain_double|].
    split; [simpl; rewrite chain_length; reflexivity|].
    split; [reflexivity|].
    assert (Hnth : forall i prev this,
               nth_error (d0 :: chain Diagram (place_below gap) d0 rest) i
               = Some prev ->
               nth_error (d0 :: rest) (S i) = Some this ->
               nth_error (d0 :: chain Diagram (place_below gap) d0 rest) (S i)
               = Some (place_below gap prev this))
      by (intros i prev this; apply chain_nth).
    split; [exact Hnth|].
    intros i prev this next Hprev Hthis Hnext.
    rewrite (Hnth i prev this Hprev Hthis) in Hnext. injection Hnext as <-.
    unfold place_below. rewrite get_anchor_translate. reflexivity.
Qed.

End Layout.

Arguments align_vertical {Diagram} get_anchor translate diagrams alignment.
Arguments align_horizontal {Diagram} get_anchor translate diagrams alignment.
Arguments distribute_horizontal {Diagram} get_anchor translate diagrams space.
Arguments distribute_vertical {Diagram} get_anchor translate diagrams space.

(** ** The operations on concrete frames *)

Lemma frame_anchor_translate (d : Frame) (v : Vector2) (a : Anchor) :
  frame_anchor (frame_translate d v) a = vadd (frame_anchor d a) v.
Proof. destruct a; reflexivity. Qed.

Definition three_frames : list Frame :=
  [unit_frame 0 0; unit_frame 5 3; unit_frame 2 (-4)].

(** Where nothing is rounded the distributions leave exactly the gap: the
    three unit squares of the specification's scenario, gap 10. *)
Example distribute_three_frames :
  exists b c,
    distribute_horizontal frame_anchor frame_translate three_frames 10
    = Ok [unit_frame 0 0; b; c] /\
    x (frame_anchor b top_left) - x (frame_anchor (unit_frame 0 0) top_right)
    = 10 /\
    x (frame_anchor c top_left) - x (frame_anchor b top_right) = 10.
Proof. do 2 eexists. repeat split. Qed.


(** The claim C7 as the specification states it fails on the same input:
    the second application moves the second square from the top
    0.09999999999999998 to the top 0.1. *)
Lemma align_vertical_twice_moves :
  exists out1 out2 d1 d2,
    align_vertical frame_anchor frame_translate
      [unit_frame 0 0.1; unit_frame 0 0.4] "top" = Ok out1 /\
    align_vertical frame_anchor frame_translate out1 "top" = Ok out2 /\
    nth_error out1 1 = Some d1 /\
    nth_error out2 1 = Some d2 /\
    y (frame_anchor d1 top_left) = 0.09999999999999998 /\
    y (frame_anchor d2 top_left) = 0.1 /\
    (y (frame_anchor d2 top_left) =? y (frame_anchor d1 top_left)) = false /\
    d2 <> frame_translate d1 (V2 0 0).
Proof.
  do 4 eexists. split; [reflexivity|]. split; [reflexivity|].
  split; [reflexivity|]. split; [reflexivity|].
  split; [reflexivity|]. split; [reflexivity|]. split; [reflexivity|].
  intros H. apply (f_equal (fun d => Prim2SF (top d))) in H.
  vm_compute in H. discriminate H.
Qed.

(** The claim C2 as the specification states it fails where the sum
    rounds: with the first right edge at 2^53 and the gap 1, the second
    square is put at 2^53, no gap after the first. *)
Lemma distribute_horizontal_gap_lost :
  exists out prev next,
    distribute_horizontal frame_anchor frame_translate
      [unit_frame 9007199254740991 0; unit_frame 0 0] 1 = Ok out /\
    nth_error out 0 = Some prev /\
    nth_error out 1 = Some next /\
    x (frame_anchor next top_left) - x (frame_anchor prev top_right) = 0 /\
    (x (frame_anchor next top_left) - x (frame_anchor prev top_right) =? 1)
    = false.
Proof.
  do 3 eexists. split; [reflexivity|]. split; [reflexivity|].
  split; [reflexivity|]. split; reflexivity.
Qed.

(** The claim C3 as the specification states it fails where the
    subtraction rounds: with the first bottom at 1, the second top at 0.1
    and the gap 0.2, the second square gets the top 0.7999999999999999,
    which is 0.20000000000000007 before the bottom 1. *)
Lemma distribute_vertical_gap_rounded :
  exists out prev next,
    distribute_vertical frame_anchor frame_translate
      [unit_frame 0 0; unit_frame 0 0.1] 0.2 = Ok out /\
    nth_error out 0 = Some prev /\
    nth_error out 1 = Some next /\
    y (frame_anchor prev bottom_left) - y (frame_anchor next top_left)
    = 0.20000000000000007 /\
    (y (frame_anchor prev bottom_left) - y (frame_anchor next top_left) =? 0.2)
    = false.
Proof.
  do 3 eexists. split; [reflexivity|]. split; [reflexivity|].
  split; [reflexivity|]. split; reflexivity.
Qed.

(** ** The theorems at concrete inputs *)


Lemma align_vertical_again_witness :
  vertical_anchor "center" = Some center_left /\
  exists out1 out2,
    align_vertical frame_anchor frame_translate three_frames "center"
    = Ok out1 /\
    align_vertical frame_anchor frame_translate out1 "center" = Ok out2 /\
    List.length out2 = List.length out1 /\
    forall r0, nth_error out1 0 = Some r0 ->
      forall i d1, nth_error out1 i = Some d1 ->
        nth_error out2 i
        = Some (frame_translate d1
                  (V2 0 (y (frame_anchor r0 center_left)
                         - y (frame_anchor d1 center_left)))) /\
        (y (frame_anchor d1 center_left) = y (frame_anchor r0 center_left) ->
         finite (y (frame_anchor r0 center_left)) ->
         nth_error out2 i = Some (frame_translate d1 (V2 0 0))).
Proof.
  split; [reflexivity|].
  apply (align_vertical_again Frame frame_anchor frame_translate
           three_frames "center" center_left).
  reflexivity.
Defined.

Lemma distribute_horizontal_moves_witness :
  exists out,
    distribute_horizontal frame_anchor frame_translate three_frames 10
    = Ok out /\
    List.length out = List.length three_frames /\
    nth_error out 0 = nth_error three_frames 0 /\
    (forall i prev this,
        nth_error out i = Some prev ->
        nth_error three_frames (S i) = Some this ->
        nth_error out (S i)
        = Some (frame_translate this
                  (V2 (x (frame_anchor prev top_right)
                       - x (frame_anchor this top_left) + 10) 0))) /\
    (forall i prev this next,
        nth_error out i = Some prev ->
        nth_error three_frames (S i) = Some this ->
        nth_error out (S i) = Some next ->
        x (frame_anchor next top_left)
        = x (frame_anchor this top_left)
          + (x (frame_anchor prev top_right)
             - x (frame_anchor this top_left) + 10)).
Proof.
  apply (distribute_horizontal_moves Frame frame_anchor frame_translate
           frame_anchor_translate three_frames 10).
Defined.

Lemma distribute_vertical_moves_witness :
  exists out,
    distribute_vertical frame_anchor frame_translate three_frames 10
    = Ok out /\
    List.length out = List.length three_frames /\
    nth_error out 0 = nth_error three_frames 0 /\
    (forall i prev this,
        nth_error out i = Some prev ->
        nth_error three_frames (S i) = Some this ->
        nth_error out (S i)
        = Some (frame_translate this
                  (V2 0 (y (frame_anchor prev bottom_left)
                         - y (frame_anchor this top_left) - 10)))) /\
    (forall i prev this next,
        nth_error out i = Some prev ->
        nth_error three_frames (S i) = Some this ->
        nth_error out (S i) = Some next ->
        y (frame_anchor next top_left)
        = y (frame_anchor this top_left)
          + (y (frame_anchor prev bottom_left)
             - y (frame_anchor this top_left) - 10)).
Proof.
  apply (distribute_vertical_moves Frame frame_anchor frame_translate
           frame_anchor_translate three_frames 10).
Defined.


Lemma align_horizontal_again_witness :
  horizontal_anchor "left" = Some top_left /\
  exists out1 out2,
    align_horizontal frame_anchor frame_translate three_frames "left"
    = Ok out1 /\
    align_horizontal frame_anchor frame_translate out1 "left" = Ok out2 /\
    List.length out2 = List.length out1 /\
    forall r0, nth_error out1 0 = Some r0 ->
      forall i d1, nth_error out1 i = Some d1 ->
        nth_error out2 i
        = Some (frame_translate d1
                  (V2 (x (frame_anchor r0 top_left)
                       - x (frame_anchor d1 top_left)) 0)) /\
        (x (frame_anchor d1 top_left) = x (frame_anchor r0 top_left) ->
         finite (x (frame_anchor r0 top_left)) ->
         nth_error out2 i = Some (frame_translate d1 (V2 0 0))).
Proof.
  split; [reflexivity|].
  apply (align_horizontal_again Frame frame_anchor frame_translate
           three_frames "left" top_left).
  reflexivity.
Defined.

End Double.
